(** * MicroRngSPI: shallow embedding of the SPI command/response engine

    Model of [MicroRngSPI.cpp] (MicroRNG SPI driver).  The C++ object is a
    [World] record holding the fields of the class that the protocol reads
    and writes, plus the environment outside the object: the SPI bus with
    the device behind it and the stack memory.  Every method becomes a
    state-passing function [World -> result * World]. *)

From Stdlib Require Import ZArith List String Ascii Bool Lia.
Import ListNotations.
Open Scope Z_scope.

(** ** Environment

    What the object sees of the outside world.
    - [xfer e hz tx]: one [ioctl(fd, SPI_IOC_MESSAGE(1), &tr)] at clock [hz]
      sending byte [tx]; [Some rx] when it reports a transferred byte
      ([retCode >= 1]), [None] when [retCode < 1]; the new environment.
    - [stackBytes e i]: the indeterminate content of byte [i] of an
      uninitialized local array (the [testBuffer] of validateCommunication).
    - [spiCallOk e n]: whether step [n] of [connect] succeeds (step 0 is
      [open], steps 1..6 the six configuration [ioctl]s). *)
Record Platform (Env : Type) := mkPlatform {
  xfer : Env -> Z -> Z -> option Z * Env;
  stackBytes : Env -> Z -> Z;
  spiCallOk : Env -> nat -> bool
}.
Arguments xfer {Env} _ _ _ _.
Arguments stackBytes {Env} _ _ _.
Arguments spiCallOk {Env} _ _ _.

(** The object's state.  [transfers] is a ghost counter of the
    [SPI_IOC_MESSAGE] ioctls issued so far; nothing in the code reads it. *)
Record World (Env : Type) := mkWorld {
  deviceConnected : bool;
  clockHz : Z;
  lastSentCommand : Z;
  lastError : string;
  transfers : nat;
  env : Env
}.
Arguments mkWorld {Env} _ _ _ _ _ _.
Arguments deviceConnected {Env} _.
Arguments clockHz {Env} _.
Arguments lastSentCommand {Env} _.
Arguments lastError {Env} _.
Arguments transfers {Env} _.
Arguments env {Env} _.

(** Constants set by [initialize()] and never written afterwards. *)
Definition minClockHz : Z := 250000.
Definition maxClockHz : Z := 60000000.
Definition testCommand : Z := 116.          (* 't' *)
Definition randomByteCommand : Z := 108.    (* 'l' *)
Definition statusByteCommand : Z := 115.    (* 's' *)
Definition rawRandomByteCommand : Z := 114. (* 'r' *)
Definition shutDownCommand : Z := 68.       (* 'D' *)
Definition startUpCommand : Z := 85.        (* 'U' *)
Definition resetUartSpeedCommand : Z := 82. (* 'R' *)

(** A value stored into a [uint8_t]. *)
Definition u8 (z : Z) : Z := z mod 256.

(** A caller's byte buffer [uint8_t *rx], indexed from [rx]. *)
Definition Buf := Z -> Z.
Definition upd (b : Buf) (i : Z) (v : Z) : Buf :=
  fun j => if j =? i then v else b j.

(** ** The state monad *)
Definition M (Env A : Type) := World Env -> A * World Env.
Definition ret {Env A} (a : A) : M Env A := fun w => (a, w).
Definition bind {Env A B} (m : M Env A) (k : A -> M Env B) : M Env B :=
  fun w => let (a, w') := m w in k a w'.
Notation "x <- m ;; k" := (bind m (fun x => k))
  (at level 61, m at next level, right associativity).
Notation "m ;;; k" := (bind m (fun _ => k))
  (at level 61, right associativity).

(** ** Concrete platforms used to evaluate the driver

    They count the transfers in the environment ([Env = Z]) and leave zero
    bytes on the stack; all but [configBus] accept every configuration
    call. *)

(** A device that answers transfer number [e] with byte [e] and whose
    transfer number [failAt] is reported as failed. *)
Definition counterBus (failAt : Z) : Platform Z :=
  mkPlatform Z
    (fun e _ _ => if e =? failAt then (None, e + 1) else (Some e, e + 1))
    (fun _ _ => 0) (fun _ _ => true).

(** A bus on which every transfer fails. *)
Definition deadBus : Platform Z :=
  mkPlatform Z (fun e _ _ => (None, e + 1)) (fun _ _ => 0) (fun _ _ => true).

(** A device that answers transfer number [e] with byte [e] at clock rates
    up to [good] Hz, and with a constant 0 above [good]. *)
Definition freqBus (good : Z) : Platform Z :=
  mkPlatform Z
    (fun e hz _ => if hz <=? good then (Some e, e + 1) else (Some 0, e + 1))
    (fun _ _ => 0) (fun _ _ => true).

(** A device that answers transfer number [e] with byte [e], on a bus whose
    configuration step [failStep] of [connect] is refused. *)
Definition configBus (failStep : nat) : Platform Z :=
  mkPlatform Z (fun e _ _ => (Some e, e + 1)) (fun _ _ => 0)
    (fun _ n => negb (Nat.eqb n failStep)).

Section Driver.
Context {Env : Type} (P : Platform Env).
Local Abbreviation St := (M Env).

(** [MicroRngSPI()] : [initialize()] on a fresh object. *)
Definition constructSession (e : Env) : World Env :=
  mkWorld false minClockHz 0 "Not Connected" 0%nat e.

(** [initialize()] as called from [disconnect()]. *)
Definition initialize (w : World Env) : World Env :=
  mkWorld false minClockHz 0 "Not Connected" (transfers w) (env w).

Definition setErrMsg (msg : string) : St unit := fun w =>
  (tt, mkWorld (deviceConnected w) (clockHz w) (lastSentCommand w) msg
         (transfers w) (env w)).

Definition clearErrMsg : St unit := setErrMsg "".

Definition isConnected : St bool := fun w => (deviceConnected w, w).

Definition setMaxClockFrequency (hz : Z) : St unit := fun w =>
  (tt, mkWorld (deviceConnected w) hz (lastSentCommand w) (lastError w)
         (transfers w) (env w)).

Definition getMaxClockFrequency : St Z := fun w => (clockHz w, w).

Definition getLastErrMsg : St string := fun w => (lastError w, w).

(** The error messages of the seven steps of [connect]. *)
Definition connectMessages (devicePath : string) : list string :=
  [ "Could not open SPI device: " ++ devicePath;
    "Could not set SPI write mode";
    "Could not set SPI read mode";
    "Could not set SPI transmission word bits";
    "Could not set SPI word bits";
    "Could not set SPI transmission clock frequency";
    "Could not set SPI clock frequency" ]%string.

(** First failing step of [connect], with its message. *)
Fixpoint connectSteps (e : Env) (n : nat) (msgs : list string) : option string :=
  match msgs with
  | [] => None
  | msg :: rest => if spiCallOk P e n then connectSteps e (S n) rest else Some msg
  end.

Definition connect (devicePath : string) : St bool :=
  c <- isConnected ;;
  if c then ret false else
  clearErrMsg ;;;
  fun w =>
    match connectSteps (env w) 0 (connectMessages devicePath) with
    | Some msg => (false, snd (setErrMsg msg w))
    | None =>
        (true, mkWorld true (clockHz w) (lastSentCommand w) (lastError w)
                 (transfers w) (env w))
    end.

Definition disconnect : St bool := fun w =>
  if negb (deviceConnected w) then (false, w) else (true, initialize w).

(** [exhangeByte(cmd, rx)]: the result pairs the return value with the byte
    left in [*rx] ([rx] is its value before the call). *)
Definition exhangeByte (cmd : Z) (rx : Z) : St (bool * Z) := fun w =>
  if negb (deviceConnected w) then ((false, rx), w) else
  (* *rx = 0; lastSentCommand = cmd; ioctl(...) *)
  let (r, e') := xfer P (env w) (clockHz w) cmd in
  let w1 := mkWorld (deviceConnected w) (clockHz w) cmd (lastError w)
              (S (transfers w)) e' in
  match r with
  | Some b => ((true, u8 b), w1)
  | None => ((false, 0), snd (setErrMsg "Could not exchange SPI bytes" w1))
  end.

Definition executeCommand (cmd : Z) (rx : Z) : St (bool * Z) := fun w =>
  if negb (deviceConnected w) then ((false, rx), w) else
  if negb (cmd =? lastSentCommand w) then
    (r1 <- exhangeByte cmd rx ;;
     let (ok, rx1) := r1 in
     if negb ok then ret (false, rx1) else exhangeByte cmd rx1) w
  else exhangeByte cmd rx w.

(** The single-command wrappers. *)
Definition guarded (cmd : Z) (rx : Z) : St (bool * Z) := fun w =>
  if negb (deviceConnected w) then ((false, rx), w) else executeCommand cmd rx w.

Definition retrieveDeviceStatusByte := guarded statusByteCommand.
Definition shutDownNoiseSources := guarded shutDownCommand.
Definition startUpNoiseSources := guarded startUpCommand.
Definition resetUART := guarded resetUartSpeedCommand.
Definition retrieveRandomByte := guarded randomByteCommand.
Definition retrieveTestByte := guarded testCommand.
Definition retrieveRawRandomByte := guarded rawRandomByteCommand.

(** The loop shared by the three multi-byte retrievals:
    [for (int i = 0; i < len; i++) { bool status = one(rx + i);
     if (!status) break; }] *)
Fixpoint retrieveLoop (one : Z -> St (bool * Z)) (i : Z) (fuel : nat) (rx : Buf)
  : St Buf :=
  match fuel with
  | O => ret rx
  | S f =>
      r <- one (rx i) ;;
      let (status, b) := r in
      let rx' := upd rx i b in
      if negb status then ret rx' else retrieveLoop one (i + 1) f rx'
  end.

(** The body of [retrieveRandomBytes], [retrieveTestBytes] and
    [retrieveRawRandomBytes]; [status] is the outer variable, which the
    loop's own [bool status] hides. *)
Definition retrieveBytes (one : Z -> St (bool * Z)) (msg : string) (len : Z) (rx : Buf)
  : St (bool * Buf) := fun w =>
  let status := true in
  if negb (deviceConnected w) then ((false, rx), w) else
  if len <=? 0 then ((false, rx), snd (setErrMsg msg w)) else
  let (rx', w') := retrieveLoop one 0 (Z.to_nat len) rx w in
  ((status, rx'), w').

Definition retrieveRandomBytes :=
  retrieveBytes retrieveRandomByte "Invalid ammount of random bytes requested".
Definition retrieveTestBytes :=
  retrieveBytes retrieveTestByte "Invalid amount of test bytes requested".
Definition retrieveRawRandomBytes :=
  retrieveBytes retrieveRawRandomByte "Invalid amount of raw random bytes requested".

(** [validateDevice()]: [for (int i = 1; i <= 16; ++i)]. *)
Fixpoint validateDeviceLoop (i : Z) (fuel : nat) (beginTransactionID : Z) : St bool :=
  match fuel with
  | O => ret true
  | S f =>
      r <- executeCommand 116 (* 't' *) 0 ;;
      let (ok, transactionID) := r in
      if negb ok then ret false else
      let beginTransactionID := if i =? 1 then transactionID else beginTransactionID in
      if negb (i =? 1) && negb (transactionID =? u8 (beginTransactionID + 1)) then
        setErrMsg "MicroRNG device not found" ;;; ret false
      else
        validateDeviceLoop (i + 1) f
          (if i =? 1 then beginTransactionID else u8 (beginTransactionID + 1))
  end.

Definition validateDevice : St bool := fun w =>
  if negb (deviceConnected w) then (false, w) else validateDeviceLoop 1 16 0 w.

(** The check of [validateCommunication()]:
    [for (unsigned int i = 0; i < sizeof(testBuffer); i++)]. *)
Fixpoint checkLoop (i : Z) (fuel : nat) (expectedTestByte : Z) (testBuffer : Buf)
  : St bool :=
  match fuel with
  | O => ret true
  | S f =>
      if i =? 0 then checkLoop (i + 1) f (testBuffer i) testBuffer
      else
        let expectedTestByte := u8 (expectedTestByte + 1) in
        if negb (expectedTestByte =? testBuffer i) then
          setErrMsg "Could not validate SPI communication" ;;; ret false
        else checkLoop (i + 1) f expectedTestByte testBuffer
  end.

Definition validateCommunication : St bool := fun w =>
  if negb (deviceConnected w) then (false, w) else
  let testBuffer := stackBytes P (env w) in
  let '((ok, testBuffer), w1) := retrieveTestBytes 2048 testBuffer w in
  if negb ok then (false, w1) else checkLoop 0 2048 0 testBuffer w1.

(** [for (uint32_t freqHz = minClockHz; freqHz < maxClockHz; freqHz += minClockHz)];
    the loop runs at most 239 times, the fuel is one more. *)
Fixpoint autodetectLoop (freqHz : Z) (fuel : nat) (success : bool) : St bool :=
  match fuel with
  | O => ret success
  | S f =>
      if negb (freqHz <? maxClockHz) then ret success else
      prevClockHz <- getMaxClockFrequency ;;
      setMaxClockFrequency freqHz ;;;
      status <- validateCommunication ;;
      if status then autodetectLoop (freqHz + minClockHz) f true
      else setMaxClockFrequency prevClockHz ;;; ret success
  end.

Definition autodetectMaxFrequency : St bool := fun w =>
  if negb (deviceConnected w) then (false, w) else autodetectLoop minClockHz 240 false w.

(** The responses of [n] consecutive self-test commands, as
    [validateDevice] issues them, or [None] if one of them fails.  Used to
    state what [validateDevice] checks. *)
Fixpoint testSamples (n : nat) : St (option (list Z)) :=
  match n with
  | O => ret (Some [])
  | S m =>
      r <- executeCommand 116 0 ;;
      let (ok, b) := r in
      if negb ok then ret None else
      rest <- testSamples m ;;
      ret (option_map (cons b) rest)
  end.

End Driver.

(** Each byte is the previous one plus 1, modulo 256. *)
Fixpoint incrFrom (prev : Z) (l : list Z) : bool :=
  match l with
  | [] => true
  | x :: r => (x =? u8 (prev + 1)) && incrFrom x r
  end.

Definition incrementing (l : list Z) : bool :=
  match l with
  | [] => true
  | x :: r => incrFrom x r
  end.

(** A freshly constructed object connected to ["/dev/spidev0.0"]. *)
Definition freshSession (P : Platform Z) : World Z :=
  snd (connect P "/dev/spidev0.0" (constructSession 0)).

(** * The download utility [mcrng]

    Model of [mcrng.cpp] (version 1.2), the command-line program that
    drives a [MicroRngSPI] object.  Its globals become a [Cli] record; the
    file it writes is the list of bytes passed to [fwrite]. *)

(** The C library functions the utility calls, as the platform provides
    them: [atoll], [atoi], whether [fopen(name, "wb")] and
    [fdopen(dup(fileno(stdout)), "wb")] return a stream. *)
Record Libc := mkLibc {
  atoll : string -> Z;
  atoi : string -> Z;
  fopenOk : string -> bool;
  stdoutDupOk : bool
}.

(** glibc's [strtoll(s, NULL, 10)]: leading white space, an optional sign,
    then decimal digits up to the first other character; a value out of
    range is clamped to [LLONG_MIN, LLONG_MAX]. *)
Definition isSpace (c : ascii) : bool :=
  match nat_of_ascii c with
  | 9 | 10 | 11 | 12 | 13 | 32 => true
  | _ => false
  end%nat.

Fixpoint skipSpace (s : string) : string :=
  match s with
  | EmptyString => s
  | String c r => if isSpace c then skipSpace r else s
  end.

Fixpoint digitsValue (acc : Z) (s : string) : Z :=
  match s with
  | EmptyString => acc
  | String c r =>
      let d := Z.of_nat (nat_of_ascii c) - 48 in
      if (0 <=? d) && (d <=? 9) then digitsValue (acc * 10 + d) r else acc
  end.

Definition clampLL (z : Z) : Z := Z.max (- 2 ^ 63) (Z.min (2 ^ 63 - 1) z).

Definition strtoll (s : string) : Z :=
  match skipSpace s with
  | EmptyString => 0
  | String c r =>
      if Ascii.eqb c "-"%char then clampLL (- digitsValue 0 r)
      else if Ascii.eqb c "+"%char then clampLL (digitsValue 0 r)
      else clampLL (digitsValue 0 (String c r))
  end.

(** Conversions to 32-bit types: [(uint32_t) z], and [(int) u] of a
    [uint32_t] as gcc does it. *)
Definition u32 (z : Z) : Z := z mod 2 ^ 32.
Definition toInt32 (u : Z) : Z := if u <? 2 ^ 31 then u else u - 2 ^ 32.

(** glibc on a 64-bit target: [atoll] is [strtoll], [atoi] is
    [(int) strtol] with a 64-bit [long]. *)
Definition glibc64 (fopenOk : string -> bool) (stdoutDupOk : bool) : Libc :=
  mkLibc strtoll (fun s => toInt32 (u32 (strtoll s))) fopenOk stdoutDupOk.

Definition MCR_BUFF_FILE_SIZE_BYTES : Z := 32000.
Definition DEFAULT_SPI_DEV_PATH : string := "/dev/spidev0.0".

(** The globals of [mcrng.h]: [pOutputFile] is modelled by whether a stream
    is open; [written] is what [fwrite] has written to it. *)
Record Cli (Env : Type) := mkCli {
  numGenBytes : Z;
  filePathName : option string;
  devicePath : string;
  maxSpiMasterClock : Z;
  pOutputFile : bool;
  isOutputToStandardOutput : bool;
  spi : World Env;
  written : list Z
}.
Arguments mkCli {Env} _ _ _ _ _ _ _ _.
Arguments numGenBytes {Env} _.
Arguments filePathName {Env} _.
Arguments devicePath {Env} _.
Arguments maxSpiMasterClock {Env} _.
Arguments pOutputFile {Env} _.
Arguments isOutputToStandardOutput {Env} _.
Arguments spi {Env} _.
Arguments written {Env} _.

Section Download.
Context {Env : Type} (P : Platform Env) (L : Libc).

(** The static initializers of [mcrng.h], around the constructed [spi]. *)
Definition initCli (w : World Env) : Cli Env :=
  mkCli (-1) None "" 250000 false false w [].

Definition setNumGenBytes (n : Z) (s : Cli Env) : Cli Env :=
  mkCli n (filePathName s) (devicePath s) (maxSpiMasterClock s) (pOutputFile s)
    (isOutputToStandardOutput s) (spi s) (written s).
Definition setFilePathName (f : option string) (s : Cli Env) : Cli Env :=
  mkCli (numGenBytes s) f (devicePath s) (maxSpiMasterClock s) (pOutputFile s)
    (isOutputToStandardOutput s) (spi s) (written s).
Definition setDevicePath (d : string) (s : Cli Env) : Cli Env :=
  mkCli (numGenBytes s) (filePathName s) d (maxSpiMasterClock s) (pOutputFile s)
    (isOutputToStandardOutput s) (spi s) (written s).
Definition setMaxSpiMasterClock (hz : Z) (s : Cli Env) : Cli Env :=
  mkCli (numGenBytes s) (filePathName s) (devicePath s) hz (pOutputFile s)
    (isOutputToStandardOutput s) (spi s) (written s).
Definition setOutputFile (o : bool) (s : Cli Env) : Cli Env :=
  mkCli (numGenBytes s) (filePathName s) (devicePath s) (maxSpiMasterClock s) o
    (isOutputToStandardOutput s) (spi s) (written s).
Definition setOutputToStandardOutput (b : bool) (s : Cli Env) : Cli Env :=
  mkCli (numGenBytes s) (filePathName s) (devicePath s) (maxSpiMasterClock s)
    (pOutputFile s) b (spi s) (written s).
Definition setSpi (w : World Env) (s : Cli Env) : Cli Env :=
  mkCli (numGenBytes s) (filePathName s) (devicePath s) (maxSpiMasterClock s)
    (pOutputFile s) (isOutputToStandardOutput s) w (written s).

(** [argv[idx]]. *)
Definition arg (argv : list string) (idx : Z) : string := nth (Z.to_nat idx) argv ""%string.

Definition validateArgumentCount (curIdx actualArgumentCount : Z) : bool :=
  negb (actualArgumentCount <=? curIdx).

(** [parseDevicePath(idx, argc, argv)]: [idx] is passed by value, so the
    caller's index does not move past the path. *)
Definition parseDevicePath (idx argc : Z) (argv : list string) (s : Cli Env) : Z * Cli Env :=
  if idx <? argc then
    if String.eqb "-dp" (arg argv idx) || String.eqb "--device-path" (arg argv idx) then
      let idx := idx + 1 in
      if negb (validateArgumentCount idx argc) then (-1, s)
      else (0, setDevicePath (arg argv idx) s)
    else (0, s)
  else (0, s).

(** The [while (idx < argc)] loop of [processArguments]; [false] is
    [return -1].  Every round moves [idx] forward, so [argc] rounds
    suffice. *)
Fixpoint argLoop (argv : list string) (argc : Z) (fuel : nat) (idx : Z) (s : Cli Env)
  : bool * Cli Env :=
  match fuel with
  | O => (true, s)
  | S f =>
      if negb (idx <? argc) then (true, s) else
      if String.eqb "-nb" (arg argv idx) || String.eqb "--number-bytes" (arg argv idx) then
        let idx := idx + 1 in
        if negb (validateArgumentCount idx argc) then (false, s) else
        let s := setNumGenBytes (atoll L (arg argv idx)) s in
        let idx := idx + 1 in
        if 200000000000 <? numGenBytes s then (false, s) else argLoop argv argc f idx s
      else if String.eqb "-fn" (arg argv idx) || String.eqb "--file-name" (arg argv idx) then
        let idx := idx + 1 in
        if negb (validateArgumentCount idx argc) then (false, s) else
        let s := setFilePathName (Some (arg argv idx)) s in
        argLoop argv argc f (idx + 1) s
      else if String.eqb "-cf" (arg argv idx) || String.eqb "--clock-frequency" (arg argv idx) then
        let idx := idx + 1 in
        if negb (validateArgumentCount idx argc) then (false, s) else
        let s := setMaxSpiMasterClock (u32 (u32 (atoi L (arg argv idx)) * 1000)) s in
        argLoop argv argc f (idx + 1) s
      else
        let (r, s) := parseDevicePath idx argc argv s in
        if r =? -1 then (false, s)
        else (* Could not handle the argument, skip to the next one *)
          argLoop argv argc f (idx + 1) s
  end.

Definition closeHandle (s : Cli Env) : Cli Env :=
  if pOutputFile s then setOutputFile false s else s.

(** [writeBytes(bytes, numBytes)]: [fwrite] of the first [numBytes] bytes. *)
Definition writeBytes (bytes : Buf) (numBytes : Z) (s : Cli Env) : Cli Env :=
  mkCli (numGenBytes s) (filePathName s) (devicePath s) (maxSpiMasterClock s)
    (pOutputFile s) (isOutputToStandardOutput s) (spi s)
    (written s ++ map (fun i => bytes (Z.of_nat i)) (seq 0 (Z.to_nat numBytes))).

(** [spi.retrieveRandomBytes(len, receiveByteBuffer)]. *)
Definition spiRetrieve (len : Z) (buf : Buf) (s : Cli Env) : bool * Buf * Cli Env :=
  let '((ok, buf), w) := retrieveRandomBytes P len buf (spi s) in (ok, buf, setSpi w s).

(** [for (int64_t chunkNum = 0; chunkNum < numCompleteChunks; chunkNum++)]. *)
Fixpoint chunkLoop (fuel : nat) (buf : Buf) (s : Cli Env) : bool * Buf * Cli Env :=
  match fuel with
  | O => (true, buf, s)
  | S f =>
      let '(ok, buf, s) := spiRetrieve MCR_BUFF_FILE_SIZE_BYTES buf s in
      if negb ok then (false, buf, s)
      else chunkLoop f buf (writeBytes buf MCR_BUFF_FILE_SIZE_BYTES s)
  end.

(** The part of [handleDownloadRequest] after the unlimited-download loop. *)
Definition downloadCount (buf : Buf) (s : Cli Env) : Z * Cli Env :=
  let numCompleteChunks := Z.quot (numGenBytes s) MCR_BUFF_FILE_SIZE_BYTES in
  let chunkRemaindBytes := u32 (Z.rem (numGenBytes s) MCR_BUFF_FILE_SIZE_BYTES) in
  let '(ok, buf, s) := chunkLoop (Z.to_nat numCompleteChunks) buf s in
  if negb ok then (-1, s) else
  if 0 <? chunkRemaindBytes then
    let '(ok, buf, s) := spiRetrieve (toInt32 chunkRemaindBytes) buf s in
    if negb ok then (-1, s) else
    (0, closeHandle (writeBytes buf chunkRemaindBytes s))
  else (0, closeHandle s).

(** [while (numGenBytes == -1)]: the loop ends only on a failed retrieval.
    Its result is [None] while it is still running after [rounds] rounds;
    with [numGenBytes <> -1] the loop is skipped whatever [rounds] is. *)
Fixpoint unlimitedLoop (rounds : nat) (buf : Buf) (s : Cli Env) : option Z * Cli Env :=
  if negb (numGenBytes s =? -1) then
    let (ret, s) := downloadCount buf s in (Some ret, s)
  else
    match rounds with
    | O => (None, s)
    | S r =>
        let '(ok, buf, s) := spiRetrieve MCR_BUFF_FILE_SIZE_BYTES buf s in
        if negb ok then (Some (-1), s)
        else unlimitedLoop r buf (writeBytes buf MCR_BUFF_FILE_SIZE_BYTES s)
    end.

(** [handleDownloadRequest()]; [receiveByteBuffer] is an uninitialized
    local array. *)
Definition handleDownloadRequest (rounds : nat) (s : Cli Env) : option Z * Cli Env :=
  let receiveByteBuffer := stackBytes P (env (spi s)) in
  let (ok, w) := connect P (devicePath s) (spi s) in
  let s := setSpi w s in
  if negb ok then (Some (-1), s) else
  let s := setSpi (snd (setMaxClockFrequency (maxSpiMasterClock s) (spi s))) s in
  let (ok, w) := validateDevice P (spi s) in
  let s := setSpi w s in
  if negb ok then (Some (-1), s) else
  match filePathName s with
  | None => (Some (-1), s)
  | Some name =>
      let opened := if isOutputToStandardOutput s then stdoutDupOk L else fopenOk L name in
      let s := setOutputFile opened s in
      if negb opened then (Some (-1), s) else
      unlimitedLoop rounds receiveByteBuffer s
  end.

Definition isStdoutName (name : string) : bool :=
  String.eqb name "STDOUT" || String.eqb name "/dev/stdout".

Definition processDownloadRequest (rounds : nat) (s : Cli Env) : option Z * Cli Env :=
  let s := setOutputToStandardOutput
             (match filePathName s with Some f => isStdoutName f | None => false end) s in
  handleDownloadRequest rounds s.

Definition processArguments (rounds : nat) (argv : list string) (s : Cli Env)
  : option Z * Cli Env :=
  let argc := Z.of_nat (List.length argv) in
  let s := setDevicePath DEFAULT_SPI_DEV_PATH s in
  if argc <? 2 then (Some (-1), s) else
  let (ok, s) := argLoop argv argc (List.length argv) 1 s in
  if negb ok then (Some (-1), s) else processDownloadRequest rounds s.

(** [main]: [if (!processArguments(argc, argv)) return -1; return 0;]. *)
Definition mcrngMain (rounds : nat) (argv : list string) (s : Cli Env) : option Z * Cli Env :=
  let (r, s) := processArguments rounds argv s in
  (option_map (fun r => if r =? 0 then -1 else 0) r, s).

End Download.

(** * Proofs *)

Section Proofs.
Context {Env : Type} (P : Platform Env).

Ltac unf := unfold bind, ret in *.

(** One transfer on a connected session. *)
Lemma exhangeByte_post (cmd rx : Z) (w : World Env) ok r w' :
  deviceConnected w = true ->
  exhangeByte P cmd rx w = ((ok, r), w') ->
  deviceConnected w' = true /\ clockHz w' = clockHz w /\
  lastSentCommand w' = cmd /\ transfers w' = S (transfers w) /\
  (ok = false -> r = 0).
Proof.
  intros Hc Hx. unfold exhangeByte in Hx. rewrite Hc in Hx. cbn in Hx.
  destruct (xfer P (env w) (clockHz w) cmd) as [[b|] e'].
  - inversion Hx; subst; cbn; repeat split; auto; discriminate.
  - inversion Hx; subst; cbn; repeat split; auto.
Qed.

Lemma executeCommand_post (cmd rx : Z) (w : World Env) ok r w' :
  deviceConnected w = true ->
  executeCommand P cmd rx w = ((ok, r), w') ->
  deviceConnected w' = true /\ clockHz w' = clockHz w /\
  lastSentCommand w' = cmd /\ (ok = false -> r = 0) /\
  (cmd = lastSentCommand w -> transfers w' = S (transfers w)) /\
  (cmd <> lastSentCommand w -> ok = true -> transfers w' = S (S (transfers w))) /\
  (cmd <> lastSentCommand w ->
     transfers w' = S (transfers w) \/ transfers w' = S (S (transfers w))).
Proof.
  intros Hc Hx. unfold executeCommand in Hx. rewrite Hc in Hx. cbn in Hx.
  destruct (Z.eqb_spec cmd (lastSentCommand w)) as [Heq|Hne]; cbn in Hx.
  - destruct (exhangeByte_post _ _ _ _ _ _ Hc Hx) as (H1 & H2 & H3 & H4 & H5).
    repeat split; auto; congruence.
  - unf. destruct (exhangeByte P cmd rx w) as [[ok1 r1] w1] eqn:E1.
    destruct (exhangeByte_post _ _ _ _ _ _ Hc E1) as (H1 & H2 & H3 & H4 & H5).
    destruct ok1; cbn in Hx.
    + destruct (exhangeByte_post _ _ _ _ _ _ H1 Hx) as (G1 & G2 & G3 & G4 & G5).
      repeat split; auto; try congruence; intros; lia.
    + inversion Hx; subst. repeat split; auto; intros; try congruence; lia.
Qed.

Lemma connect_fresh (e : Env) (path : string) w0 :
  connect P path (constructSession e) = (true, w0) ->
  deviceConnected w0 = true /\ lastSentCommand w0 = 0 /\ transfers w0 = 0%nat.
Proof.
  unfold connect, constructSession, isConnected, clearErrMsg, setErrMsg. unf.
  cbn -[connectSteps].
  destruct (connectSteps P e 0 (connectMessages path)); intros H; inversion H;
    repeat split.
Qed.

(** C1 (amended): the transfers of [executeCommand(C)] on a connected session.
    When [C] equals the recorded last-sent command it issues exactly one
    transfer; when it differs it issues a priming transfer and, if that
    succeeds, a second one (two transfers on success, one or two on
    failure).  [C] is recorded as last-sent in every case.  The recorded
    command of a freshly connected session, before any transfer, is byte 0. *)
Theorem executeCommand_transfer_count (cmd rx : Z) (w : World Env) ok r w'
  (Hc : deviceConnected w = true)
  (Hx : executeCommand P cmd rx w = ((ok, r), w')) :
  lastSentCommand w' = cmd /\
  (cmd = lastSentCommand w -> transfers w' = S (transfers w)) /\
  (cmd <> lastSentCommand w -> ok = true -> transfers w' = S (S (transfers w))) /\
  (cmd <> lastSentCommand w ->
     transfers w' = S (transfers w) \/ transfers w' = S (S (transfers w))) /\
  (forall (e : Env) path w0, connect P path (constructSession e) = (true, w0) ->
     lastSentCommand w0 = 0 /\ transfers w0 = 0%nat).
Proof.
  destruct (executeCommand_post _ _ _ _ _ _ Hc Hx) as (_ & _ & H3 & _ & H5 & H6 & H7).
  split; [auto|]. split; [auto|]. split; [auto|]. split; [auto|].
  intros e0 path w0 H. destruct (connect_fresh _ _ _ H) as (_ & ? & ?); auto.
Qed.

(** C10: [lastSentCommand] is written before the transfer, so after any
    [executeCommand(C)] on a connected session, even a failed one, [C] is
    recorded and the next [executeCommand(C)] issues exactly one transfer. *)
Theorem executeCommand_failed_keeps_command (cmd rx : Z) (w : World Env) ok r w1
  (Hc : deviceConnected w = true)
  (Hx : executeCommand P cmd rx w = ((ok, r), w1)) :
  lastSentCommand w1 = cmd /\
  forall rx' ok' r' w2, executeCommand P cmd rx' w1 = ((ok', r'), w2) ->
    transfers w2 = S (transfers w1).
Proof.
  destruct (executeCommand_post _ _ _ _ _ _ Hc Hx) as (H1 & _ & H3 & _).
  split; auto. intros rx' ok' r' w2 H.
  destruct (executeCommand_post _ _ _ _ _ _ H1 H) as (_ & _ & _ & _ & G & _).
  apply G; auto.
Qed.

(** C7 (amended): on a disconnected session every protocol operation
    returns failure at once, leaves the session and the caller's buffer
    unchanged and so issues no transfer; the clock-frequency setter has no
    connection check and stores the new frequency. *)
Theorem disconnected_operations_fail (w : World Env)
  (Hd : deviceConnected w = false) :
  (forall cmd rx, executeCommand P cmd rx w = ((false, rx), w)) /\
  (forall rx, retrieveRandomByte P rx w = ((false, rx), w)) /\
  (forall rx, retrieveRawRandomByte P rx w = ((false, rx), w)) /\
  (forall rx, retrieveTestByte P rx w = ((false, rx), w)) /\
  (forall rx, retrieveDeviceStatusByte P rx w = ((false, rx), w)) /\
  (forall rx, shutDownNoiseSources P rx w = ((false, rx), w)) /\
  (forall rx, startUpNoiseSources P rx w = ((false, rx), w)) /\
  (forall rx, resetUART P rx w = ((false, rx), w)) /\
  (forall len buf, retrieveRandomBytes P len buf w = ((false, buf), w)) /\
  (forall len buf, retrieveRawRandomBytes P len buf w = ((false, buf), w)) /\
  (forall len buf, retrieveTestBytes P len buf w = ((false, buf), w)) /\
  validateDevice P w = (false, w) /\
  validateCommunication P w = (false, w) /\
  autodetectMaxFrequency P w = (false, w) /\
  disconnect w = (false, w) /\
  (forall hz, snd (setMaxClockFrequency hz w) =
     mkWorld false hz (lastSentCommand w) (lastError w) (transfers w) (env w)).
Proof.
  unfold executeCommand, retrieveRandomByte, retrieveRawRandomByte,
    retrieveTestByte, retrieveDeviceStatusByte, shutDownNoiseSources,
    startUpNoiseSources, resetUART, guarded, retrieveRandomBytes,
    retrieveRawRandomBytes, retrieveTestBytes, retrieveBytes, validateDevice,
    validateCommunication, autodetectMaxFrequency, disconnect,
    setMaxClockFrequency.
  rewrite Hd. repeat split; cbn; auto.
Qed.

(** C8: on a connected session a count [len <= 0] makes the three
    multi-byte retrievals fail with their invalid-argument message, with no
    transfer and the buffer untouched. *)
Theorem retrieveBytes_nonpositive (w : World Env) (len : Z) (buf : Buf)
  (Hc : deviceConnected w = true) (Hlen : len <= 0) :
  retrieveRandomBytes P len buf w =
    ((false, buf), snd (setErrMsg "Invalid ammount of random bytes requested" w)) /\
  retrieveRawRandomBytes P len buf w =
    ((false, buf), snd (setErrMsg "Invalid amount of raw random bytes requested" w)) /\
  retrieveTestBytes P len buf w =
    ((false, buf), snd (setErrMsg "Invalid amount of test bytes requested" w)) /\
  forall msg, transfers (snd (setErrMsg msg w)) = transfers w.
Proof.
  unfold retrieveRandomBytes, retrieveRawRandomBytes, retrieveTestBytes,
    retrieveBytes.
  rewrite Hc. cbn. replace (len <=? 0) with true by (symmetry; apply Z.leb_le; lia).
  repeat split; reflexivity.
Qed.

Ltac zcase :=
  repeat match goal with
  | |- context [?a =? ?b] => destruct (Z.eqb_spec a b)
  | |- context [?a <=? ?b] => destruct (Z.leb_spec a b)
  | |- context [?a <? ?b] => destruct (Z.ltb_spec a b)
  end; cbn; try lia.

(** The retrieval loop, run on a sequence of single-byte operations that
    succeed [k] times and then fail: it stops there, having written the [k]
    bytes and the failing operation's byte, and nothing beyond. *)
Lemma retrieveLoop_stops (one : Z -> M Env (bool * Z)) :
  forall k i fuel (rx : Buf) (ws : nat -> World Env) (bs : nat -> Z) bk,
  (k < fuel)%nat ->
  (forall j, (j < k)%nat ->
     one (rx (i + Z.of_nat j)) (ws j) = ((true, bs j), ws (S j))) ->
  one (rx (i + Z.of_nat k)) (ws k) = ((false, bk), ws (S k)) ->
  exists rx', retrieveLoop one i fuel rx (ws 0%nat) = (rx', ws (S k)) /\
    forall x, rx' x =
      if (i <=? x) && (x <? i + Z.of_nat k) then bs (Z.to_nat (x - i))
      else if x =? i + Z.of_nat k then bk else rx x.
Proof.
  induction k as [|k IH]; intros i fuel rx ws bs bk Hf Hok Hfail;
    destruct fuel as [|fuel]; try lia.
  - cbn in Hfail. rewrite Z.add_0_r in Hfail.
    cbn [retrieveLoop]. unf. rewrite Hfail. cbn.
    eexists; split; [reflexivity|]. intros x. unfold upd. zcase.
  - assert (H0 := Hok 0%nat ltac:(lia)). cbn in H0. rewrite Z.add_0_r in H0.
    cbn [retrieveLoop]. unf. rewrite H0. cbn -[retrieveLoop].
    destruct (IH (i + 1) fuel (upd rx i (bs 0%nat)) (fun j => ws (S j))
                (fun j => bs (S j)) bk) as (rx' & E & Hx).
    + lia.
    + intros j Hj. unfold upd.
      replace (i + 1 + Z.of_nat j =? i) with false by (symmetry; apply Z.eqb_neq; lia).
      replace (i + 1 + Z.of_nat j) with (i + Z.of_nat (S j)) by lia.
      apply Hok; lia.
    + unfold upd.
      replace (i + 1 + Z.of_nat k =? i) with false by (symmetry; apply Z.eqb_neq; lia).
      replace (i + 1 + Z.of_nat k) with (i + Z.of_nat (S k)) by lia. exact Hfail.
    + exists rx'. split; [exact E|]. intros x. rewrite Hx. unfold upd. zcase.
      all: f_equal; apply Nat2Z.inj; rewrite ?Nat2Z.inj_succ, Z2Nat.id by lia;
        try rewrite Z2Nat.id by lia; lia.
Qed.

Lemma guarded_post (cmd rx : Z) (w : World Env) ok r w' :
  deviceConnected w = true ->
  guarded P cmd rx w = ((ok, r), w') ->
  deviceConnected w' = true /\ clockHz w' = clockHz w /\
  lastSentCommand w' = cmd /\ (ok = false -> r = 0).
Proof.
  intros Hc Hx. unfold guarded in Hx. rewrite Hc in Hx. cbn in Hx.
  destruct (executeCommand_post _ _ _ _ _ _ Hc Hx) as (? & ? & ? & ? & _). auto.
Qed.

(** C9 (amended): when the [k]-th single-byte retrieval of
    [retrieveRandomBytes(n, buf)] (0-based, [k < n]) is the first to fail,
    positions [0, k) hold the bytes received, position [k] holds 0 (written by
    exhangeByte before its transfer) and every position after [k] keeps its
    prior content. *)
Theorem retrieveRandomBytes_partial_write (n k : nat) (buf : Buf)
  (ws : nat -> World Env) (bs : nat -> Z) (bk : Z)
  (Hc : deviceConnected (ws 0%nat) = true) (Hk : (k < n)%nat)
  (Hok : forall i, (i < k)%nat ->
     retrieveRandomByte P (buf (Z.of_nat i)) (ws i) = ((true, bs i), ws (S i)))
  (Hfail : retrieveRandomByte P (buf (Z.of_nat k)) (ws k) = ((false, bk), ws (S k))) :
  snd (retrieveRandomBytes P (Z.of_nat n) buf (ws 0%nat)) = ws (S k) /\
  (forall j, 0 <= j < Z.of_nat k ->
     snd (fst (retrieveRandomBytes P (Z.of_nat n) buf (ws 0%nat))) j = bs (Z.to_nat j)) /\
  snd (fst (retrieveRandomBytes P (Z.of_nat n) buf (ws 0%nat))) (Z.of_nat k) = 0 /\
  (forall j, Z.of_nat k < j ->
     snd (fst (retrieveRandomBytes P (Z.of_nat n) buf (ws 0%nat))) j = buf j).
Proof.
  assert (Hconn : forall i, (i <= k)%nat -> deviceConnected (ws i) = true).
  { induction i as [|i IHi]; intros Hi; auto.
    destruct (guarded_post _ _ _ _ _ _ (IHi ltac:(lia)) (Hok i ltac:(lia))); auto. }
  assert (Hbk : bk = 0).
  { destruct (guarded_post _ _ _ _ _ _ (Hconn k ltac:(lia)) Hfail) as (_ & _ & _ & H).
    auto. }
  destruct (retrieveLoop_stops (retrieveRandomByte P) k 0 (Z.to_nat (Z.of_nat n)) buf
              ws bs bk) as (rx' & E & Hx).
  - lia.
  - intros j Hj. apply Hok; auto.
  - exact Hfail.
  - unfold retrieveRandomBytes, retrieveBytes. rewrite Hc. cbn -[retrieveLoop].
    replace (Z.of_nat n <=? 0) with false by (symmetry; apply Z.leb_gt; lia).
    rewrite E. cbn. split; [reflexivity|].
    split; [|split]; [intros j Hj| |intros j Hj]; rewrite Hx; zcase.
    f_equal. lia.
Qed.

Lemma testSamples_length : forall n (w : World Env) l,
  fst (testSamples P n w) = Some l -> List.length l = n.
Proof.
  induction n as [|n IH]; intros w l H.
  - cbn in H. inversion H. reflexivity.
  - cbn [testSamples] in H. unf.
    destruct (executeCommand P 116 0 w) as [[ok b] w1].
    destruct ok; cbn in H; [|discriminate].
    destruct (testSamples P n w1) as [o w2] eqn:E. cbn in H.
    destruct o as [l'|]; cbn in H; inversion H; subst.
    cbn. f_equal. apply (IH w1). rewrite E. reflexivity.
Qed.

Lemma validateDeviceLoop_iff : forall fuel i bg (w : World Env),
  deviceConnected w = true -> 1 < i ->
  (fst (validateDeviceLoop P i fuel bg w) = true <->
   exists l, fst (testSamples P fuel w) = Some l /\ incrFrom bg l = true).
Proof.
  induction fuel as [|fuel IH]; intros i bg w Hc Hi.
  - cbn. split; [intros _; exists []; auto | reflexivity].
  - cbn [validateDeviceLoop testSamples]. unf.
    destruct (executeCommand P 116 0 w) as [[ok b] w1] eqn:E.
    destruct (executeCommand_post _ _ _ _ _ _ Hc E) as (H1 & _).
    destruct ok; cbn -[validateDeviceLoop testSamples].
    + replace (i =? 1) with false by (symmetry; apply Z.eqb_neq; lia). cbn -[validateDeviceLoop testSamples].
      destruct (testSamples P fuel w1) as [o w2] eqn:Es.
      destruct (Z.eqb_spec b (u8 (bg + 1))) as [Hb|Hb]; cbn -[validateDeviceLoop].
      * rewrite (IH (i + 1) (u8 (bg + 1)) w1 H1 ltac:(lia)). rewrite Es. cbn.
        subst b. split.
        -- intros (l & Hl & Hin). subst o. exists (u8 (bg + 1) :: l). cbn.
           rewrite Z.eqb_refl. auto.
        -- intros (l & Hl & Hin). destruct o as [l'|]; cbn in Hl; inversion Hl; subst.
           exists l'. cbn in Hin. rewrite Z.eqb_refl in Hin. auto.
      * split; [discriminate|]. intros (l & Hl & Hin).
        destruct o as [l'|]; cbn in Hl; inversion Hl; subst.
        cbn in Hin. apply andb_prop in Hin as [Hin _]. apply Z.eqb_eq in Hin. congruence.
    + split; [discriminate|]. intros (l & Hl & _). discriminate.
Qed.

Lemma validateDeviceLoop_first : forall n (w : World Env),
  deviceConnected w = true ->
  (fst (validateDeviceLoop P 1 (S n) 0 w) = true <->
   exists l, fst (testSamples P (S n) w) = Some l /\ incrementing l = true).
Proof.
  intros n w Hc. cbn [validateDeviceLoop testSamples]. unf.
  destruct (executeCommand P 116 0 w) as [[ok b] w1] eqn:E.
  destruct (executeCommand_post _ _ _ _ _ _ Hc E) as (H1 & _).
  destruct ok; cbn -[validateDeviceLoop testSamples].
  - rewrite (validateDeviceLoop_iff n 2 b w1 H1 ltac:(lia)).
    destruct (testSamples P n w1) as [o w2] eqn:Es. cbn. split.
    + intros (l & Hl & Hin). subst o. exists (b :: l). auto.
    + intros (l & Hl & Hin). destruct o as [l'|]; cbn in Hl; inversion Hl; subst.
      exists l'. auto.
  - split; [discriminate|]. intros (l & Hl & _). discriminate.
Qed.

(** C4: on a connected session [validateDevice] succeeds exactly when the
    16 self-test commands it issues all succeed and their response bytes,
    from the second on, each exceed the previous one by 1 modulo 256. *)
Theorem validateDevice_iff_incrementing (w : World Env)
  (Hc : deviceConnected w = true) :
  fst (validateDevice P w) = true <->
  exists l, fst (testSamples P 16 w) = Some l /\ List.length l = 16%nat /\
            incrementing l = true.
Proof.
  unfold validateDevice. rewrite Hc. cbn -[validateDeviceLoop testSamples].
  rewrite (validateDeviceLoop_first 15 w Hc). split.
  - intros (l & Hl & Hin). exists l. repeat split; auto.
    apply (testSamples_length 16 w). exact Hl.
  - intros (l & Hl & _ & Hin). exists l. auto.
Qed.

(** Connection and clock frequency are left alone by the loops. *)
Lemma retrieveLoop_pres (one : Z -> M Env (bool * Z)) :
  (forall rx w ok r w', deviceConnected w = true -> one rx w = ((ok, r), w') ->
     deviceConnected w' = true /\ clockHz w' = clockHz w) ->
  forall fuel i rx (w : World Env), deviceConnected w = true ->
  deviceConnected (snd (retrieveLoop one i fuel rx w)) = true /\
  clockHz (snd (retrieveLoop one i fuel rx w)) = clockHz w.
Proof.
  intros Hone. induction fuel as [|fuel IH]; intros i rx w Hc; [cbn; auto|].
  cbn [retrieveLoop]. unf. destruct (one (rx i) w) as [[st b] w1] eqn:E.
  destruct (Hone _ _ _ _ _ Hc E) as [H1 H2].
  destruct st; cbn -[retrieveLoop]; [|auto].
  destruct (IH (i + 1) (upd rx i b) w1 H1). split; congruence.
Qed.

Lemma retrieveBytes_pres (one : Z -> M Env (bool * Z)) msg len rx (w : World Env) :
  (forall rx w ok r w', deviceConnected w = true -> one rx w = ((ok, r), w') ->
     deviceConnected w' = true /\ clockHz w' = clockHz w) ->
  deviceConnected w = true ->
  deviceConnected (snd (retrieveBytes one msg len rx w)) = true /\
  clockHz (snd (retrieveBytes one msg len rx w)) = clockHz w.
Proof.
  intros Hone Hc. unfold retrieveBytes. rewrite Hc. cbn -[retrieveLoop].
  destruct (len <=? 0); [cbn; auto|].
  pose proof (retrieveLoop_pres one Hone (Z.to_nat len) 0 rx w Hc) as Hp.
  destruct (retrieveLoop one 0 (Z.to_nat len) rx w). exact Hp.
Qed.

Lemma checkLoop_pres : forall fuel i e tb (w : World Env),
  deviceConnected (snd (checkLoop i fuel e tb w)) = deviceConnected w /\
  clockHz (snd (checkLoop i fuel e tb w)) = clockHz w.
Proof.
  induction fuel as [|fuel IH]; intros i e tb w; [cbn; auto|].
  cbn [checkLoop]. destruct (i =? 0); [apply IH|].
  destruct (negb (u8 (e + 1) =? tb i)); [cbn; auto | apply IH].
Qed.

Lemma validateCommunication_pres (w : World Env) :
  deviceConnected w = true ->
  deviceConnected (snd (validateCommunication P w)) = true /\
  clockHz (snd (validateCommunication P w)) = clockHz w.
Proof.
  intros Hc. unfold validateCommunication. rewrite Hc. cbn -[retrieveTestBytes checkLoop].
  pose proof (retrieveBytes_pres (retrieveTestByte P) "Invalid amount of test bytes requested"
                2048 (stackBytes P (env w)) w) as Hp.
  unfold retrieveTestBytes.
  destruct (retrieveBytes (retrieveTestByte P) "Invalid amount of test bytes requested"
              2048 (stackBytes P (env w)) w) as [[ok tb] w1].
  destruct Hp as [H1 H2]; auto.
  { intros rx w0 ok0 r w' Hc0 Hx. destruct (guarded_post _ _ _ _ _ _ Hc0 Hx) as (? & ? & _).
    auto. }
  cbn in H1, H2.
  destruct ok; cbn -[checkLoop]; [|auto].
  destruct (checkLoop_pres 2048 0 0 tb w1). split; congruence.
Qed.

Section Calibration.
(** The device passes [validateCommunication] at the first [k] frequency
    steps and fails it at step [k + 1], which the sweep reaches. *)
Variable k : nat.
Hypothesis Hrange : Z.of_nat (S k) * minClockHz < maxClockHz.
Hypothesis Hpass : forall i (w : World Env), (1 <= i <= k)%nat ->
  deviceConnected w = true -> clockHz w = Z.of_nat i * minClockHz ->
  fst (validateCommunication P w) = true.
Hypothesis Hfail : forall (w : World Env),
  deviceConnected w = true -> clockHz w = Z.of_nat (S k) * minClockHz ->
  fst (validateCommunication P w) = false.

Lemma autodetectLoop_run : forall m j fuel succ (w : World Env),
  deviceConnected w = true -> (1 <= j)%nat -> (j + m = S k)%nat -> (m < fuel)%nat ->
  fst (autodetectLoop P (Z.of_nat j * minClockHz) fuel succ w) =
    (if Nat.eqb m 0 then succ else true) /\
  clockHz (snd (autodetectLoop P (Z.of_nat j * minClockHz) fuel succ w)) =
    (if Nat.eqb m 0 then clockHz w else Z.of_nat k * minClockHz).
Proof.
  induction m as [|m IH]; intros j fuel succ w Hc Hj Hjm Hf;
    destruct fuel as [|fuel]; try lia.
  all: cbn [autodetectLoop].
  all: replace (Z.of_nat j * minClockHz <? maxClockHz) with true
         by (symmetry; apply Z.ltb_lt; unfold minClockHz, maxClockHz in *; lia).
  all: unfold getMaxClockFrequency, setMaxClockFrequency; unf;
       cbn -[validateCommunication autodetectLoop].
  all: match goal with |- context [validateCommunication P ?w1] =>
         assert (Hc1 : deviceConnected w1 = true) by exact Hc;
         assert (Hv : clockHz w1 = Z.of_nat j * minClockHz) by reflexivity;
         pose proof (validateCommunication_pres w1 Hc1) as [Hc2 Hk2];
         pose proof (Hfail w1 Hc1) as Hf1;
         pose proof (fun Hi => Hpass j w1 Hi Hc1 Hv) as Hp1;
         destruct (validateCommunication P w1) as [st w2] eqn:E
       end.
  - assert (Hst : st = false).
    { apply Hf1. rewrite Hv. f_equal. lia. }
    subst st. cbn. auto.
  - assert (Hst : st = true).
    { apply Hp1. lia. }
    subst st. cbn in Hc2, Hk2.
    replace (Z.of_nat j * minClockHz + minClockHz) with (Z.of_nat (S j) * minClockHz) by lia.
    destruct (IH (S j) fuel true w2 Hc2 ltac:(lia) ltac:(lia) ltac:(lia)) as [R1 R2].
    rewrite R1, R2. cbn.
    destruct (Nat.eqb_spec m 0); [|auto]. split; auto.
    rewrite Hk2. f_equal. lia.
Qed.

End Calibration.

(** C5: if [validateCommunication] passes at frequency steps 1..k (k >= 1)
    and fails at step k+1 (within the sweep), [autodetectMaxFrequency]
    succeeds and leaves the clock at step k. *)
Theorem autodetect_keeps_last_good (k : nat) (w : World Env)
  (Hc : deviceConnected w = true) (Hk : (1 <= k)%nat)
  (Hrange : Z.of_nat (S k) * minClockHz < maxClockHz)
  (Hpass : forall i (w' : World Env), (1 <= i <= k)%nat ->
     deviceConnected w' = true -> clockHz w' = Z.of_nat i * minClockHz ->
     fst (validateCommunication P w') = true)
  (Hfail : forall (w' : World Env),
     deviceConnected w' = true -> clockHz w' = Z.of_nat (S k) * minClockHz ->
     fst (validateCommunication P w') = false) :
  fst (autodetectMaxFrequency P w) = true /\
  clockHz (snd (autodetectMaxFrequency P w)) = Z.of_nat k * minClockHz.
Proof.
  unfold autodetectMaxFrequency. rewrite Hc. cbn -[autodetectLoop].
  replace (autodetectLoop P minClockHz 240 false w)
    with (autodetectLoop P (Z.of_nat 1 * minClockHz) 240 false w) by reflexivity.
  destruct (autodetectLoop_run k Hrange Hpass Hfail k 1 240 false w Hc
              ltac:(lia) ltac:(lia) ltac:(unfold minClockHz, maxClockHz in *; lia))
    as [R1 R2].
  destruct k as [|k']; [lia|]. cbv [Nat.eqb] in R1, R2. auto.
Qed.

(** C6 (amended): if [validateCommunication] fails at the first (minimum)
    frequency step, [autodetectMaxFrequency] fails and restores the clock
    frequency the session held before the call. *)
Theorem autodetect_first_step_fails (w : World Env)
  (Hc : deviceConnected w = true)
  (Hfail1 : forall (w' : World Env),
     deviceConnected w' = true -> clockHz w' = minClockHz ->
     fst (validateCommunication P w') = false) :
  fst (autodetectMaxFrequency P w) = false /\
  clockHz (snd (autodetectMaxFrequency P w)) = clockHz w.
Proof.
  unfold autodetectMaxFrequency. rewrite Hc. cbn -[autodetectLoop].
  replace (autodetectLoop P minClockHz 240 false w)
    with (autodetectLoop P (Z.of_nat 1 * minClockHz) 240 false w) by reflexivity.
  destruct (autodetectLoop_run 0 ltac:(unfold minClockHz, maxClockHz; lia)
              ltac:(intros; lia)
              ltac:(intros w' H1 H2; apply Hfail1; auto; rewrite H2; lia)
              0 1 240 false w Hc ltac:(lia) ltac:(lia) ltac:(lia)) as [R1 R2].
  cbv [Nat.eqb] in R1, R2. auto.
Qed.

(** ** Devices whose answers at one clock rate are known *)

Lemma retrieveLoop_S (one : Z -> M Env (bool * Z)) i n rx :
  retrieveLoop one i (S n) rx =
  (r <- one (rx i) ;;
   let (status, b) := r in
   let rx' := upd rx i b in
   if negb status then ret rx' else retrieveLoop one (i + 1) n rx').
Proof. reflexivity. Qed.

Lemma checkLoop_first n e (b : Buf) :
  checkLoop 0 (S n) e b = @checkLoop Env 1 n (b 0) b.
Proof. reflexivity. Qed.

Lemma checkLoop_zeros n (b : Buf) (w : World Env) :
  b 0 = 0 -> b 1 = 0 -> fst (checkLoop 0 (S (S n)) 0 b w) = false.
Proof.
  intros H0 H1. rewrite checkLoop_first. cbn [checkLoop]. rewrite H0, H1. reflexivity.
Qed.

Section CountingDevice.
(** At clock [f] every transfer succeeds and answers with the device's
    transfer counter [cnt], which then goes up by one. *)
Variable f : Z.
Variable cnt : Env -> Z.
Hypothesis Hgood : forall e c, exists e',
  xfer P e f c = (Some (cnt e), e') /\ cnt e' = cnt e + 1.

Lemma testByte_counting (rx : Z) (w : World Env) :
  deviceConnected w = true -> clockHz w = f ->
  exists w', retrieveTestByte P rx w =
    ((true, u8 (if testCommand =? lastSentCommand w then cnt (env w)
                else cnt (env w) + 1)), w') /\
    deviceConnected w' = true /\ clockHz w' = f /\
    lastSentCommand w' = testCommand /\
    cnt (env w') = (if testCommand =? lastSentCommand w then cnt (env w) + 1
                    else cnt (env w) + 2).
Proof.
  intros Hc Hf. unfold retrieveTestByte, guarded, executeCommand, exhangeByte.
  unfold testCommand. rewrite Hc.
  destruct (Hgood (env w) 116) as (e1 & Hx1 & Hn1).
  destruct (116 =? lastSentCommand w); unf; cbn -[u8]; rewrite ?Hf, ?Hx1; cbn -[u8].
  - eexists. split; [reflexivity|]. cbn. repeat split; auto.
  - destruct (Hgood e1 116) as (e2 & Hx2 & Hn2). rewrite Hc. cbn -[u8]. rewrite Hx2. cbn -[u8].
    rewrite Hn1. eexists. split; [reflexivity|]. cbn. repeat split; auto; lia.
Qed.

Lemma retrieveLoop_counting : forall n i (rx : Buf) (w : World Env),
  deviceConnected w = true -> clockHz w = f -> lastSentCommand w = testCommand ->
  (forall x, i <= x < i + Z.of_nat n ->
     fst (retrieveLoop (retrieveTestByte P) i n rx w) x = u8 (cnt (env w) + (x - i))) /\
  (forall x, ~ (i <= x < i + Z.of_nat n) ->
     fst (retrieveLoop (retrieveTestByte P) i n rx w) x = rx x).
Proof.
  induction n as [|n IH]; intros i rx w Hc Hf Hl; [cbn; split; intros; auto; lia|].
  rewrite retrieveLoop_S. unf.
  destruct (testByte_counting (rx i) w Hc Hf) as (w1 & E & H1 & H2 & H3 & H4).
  rewrite E. rewrite Hl, Z.eqb_refl in *. cbn -[retrieveLoop u8].
  destruct (IH (i + 1) (upd rx i (u8 (cnt (env w)))) w1 H1 H2 H3) as [R1 R2].
  split; intros x Hx.
  - destruct (Z.eq_dec x i) as [->|Hne].
    + rewrite R2 by lia. unfold upd. rewrite Z.eqb_refl. f_equal. lia.
    + rewrite R1 by lia. rewrite H4. f_equal. lia.
  - rewrite R2 by lia. unfold upd.
    replace (x =? i) with false by (symmetry; apply Z.eqb_neq; lia). reflexivity.
Qed.

Lemma checkLoop_counting (base : Z) : forall n i e (b : Buf) (w : World Env),
  1 <= i -> e = u8 (base + (i - 1)) ->
  (forall x, i <= x < i + Z.of_nat n -> b x = u8 (base + x)) ->
  fst (checkLoop i n e b w) = true.
Proof.
  induction n as [|n IH]; intros i e b w Hi He Hb; [reflexivity|].
  cbn [checkLoop]. replace (i =? 0) with false by (symmetry; apply Z.eqb_neq; lia).
  assert (Hn : u8 (e + 1) = b i).
  { rewrite Hb by lia. subst e. unfold u8. rewrite Zplus_mod_idemp_l. f_equal. lia. }
  rewrite Hn, Z.eqb_refl. cbn -[checkLoop].
  apply IH; [lia| |].
  - rewrite <- Hn, He. unfold u8. rewrite Zplus_mod_idemp_l. f_equal. lia.
  - intros x Hx. apply Hb. lia.
Qed.

Lemma validateCommunication_counting (w : World Env) :
  deviceConnected w = true -> clockHz w = f ->
  fst (validateCommunication P w) = true.
Proof.
  intros Hc Hf. unfold validateCommunication. rewrite Hc.
  cbn -[retrieveTestBytes checkLoop].
  unfold retrieveTestBytes, retrieveBytes. rewrite Hc. cbn -[retrieveLoop checkLoop].
  change (PosDef.Pos.to_nat 2048) with (S 2047). rewrite retrieveLoop_S. unf.
  destruct (testByte_counting (stackBytes P (env w) 0) w Hc Hf) as (w1 & E & H1 & H2 & H3 & H4).
  rewrite E. cbn -[retrieveLoop checkLoop u8 testCommand Z.eqb].
  set (c0 := if testCommand =? lastSentCommand w then cnt (env w) else cnt (env w) + 1).
  assert (H4' : cnt (env w1) = c0 + 1) by (unfold c0; rewrite H4; destruct (_ =? _); lia).
  destruct (retrieveLoop_counting 2047 1 (upd (stackBytes P (env w)) 0 (u8 c0)) w1 H1 H2 H3)
    as [R1 R2].
  destruct (retrieveLoop (retrieveTestByte P) 1 2047
              (upd (stackBytes P (env w)) 0 (u8 c0)) w1) as [tb w2] eqn:Er.
  try rewrite Er in R1; try rewrite Er in R2. cbn [fst] in R1, R2. cbn [negb].
  change 2048%nat with (S 2047). rewrite checkLoop_first.
  apply (checkLoop_counting c0); [lia| |].
  - rewrite R2 by lia. unfold upd. cbn. f_equal. lia.
  - intros x Hx. rewrite R1 by lia. rewrite H4'. f_equal. lia.
Qed.

End CountingDevice.

Section SilentDevice.
(** At clock [f] every transfer succeeds and answers 0. *)
Variable f : Z.
Hypothesis Hzero : forall e c, exists e', xfer P e f c = (Some 0, e').

Lemma testByte_silent (rx : Z) (w : World Env) :
  deviceConnected w = true -> clockHz w = f ->
  exists w', retrieveTestByte P rx w = ((true, 0), w') /\
    deviceConnected w' = true /\ clockHz w' = f.
Proof.
  intros Hc Hf. unfold retrieveTestByte, guarded, executeCommand, exhangeByte.
  unfold testCommand. rewrite Hc.
  destruct (Hzero (env w) 116) as (e1 & Hx1).
  destruct (116 =? lastSentCommand w); unf; cbn; rewrite ?Hf, ?Hx1; cbn.
  - eexists. repeat split; auto.
  - destruct (Hzero e1 116) as (e2 & Hx2). rewrite Hc. cbn. rewrite Hx2. cbn.
    eexists. repeat split; auto.
Qed.

Lemma retrieveLoop_silent : forall n i (rx : Buf) (w : World Env),
  deviceConnected w = true -> clockHz w = f ->
  (forall x, i <= x < i + Z.of_nat n ->
     fst (retrieveLoop (retrieveTestByte P) i n rx w) x = 0) /\
  (forall x, ~ (i <= x < i + Z.of_nat n) ->
     fst (retrieveLoop (retrieveTestByte P) i n rx w) x = rx x).
Proof.
  induction n as [|n IH]; intros i rx w Hc Hf; [cbn; split; intros; auto; lia|].
  rewrite retrieveLoop_S. unf.
  destruct (testByte_silent (rx i) w Hc Hf) as (w1 & E & H1 & H2).
  rewrite E. cbn -[retrieveLoop].
  destruct (IH (i + 1) (upd rx i 0) w1 H1 H2) as [R1 R2].
  split; intros x Hx.
  - destruct (Z.eq_dec x i) as [->|Hne].
    + rewrite R2 by lia. unfold upd. rewrite Z.eqb_refl. reflexivity.
    + apply R1. lia.
  - rewrite R2 by lia. unfold upd.
    replace (x =? i) with false by (symmetry; apply Z.eqb_neq; lia). reflexivity.
Qed.

Lemma validateCommunication_silent (w : World Env) :
  deviceConnected w = true -> clockHz w = f ->
  fst (validateCommunication P w) = false.
Proof.
  intros Hc Hf. unfold validateCommunication. rewrite Hc.
  cbn -[retrieveTestBytes checkLoop].
  unfold retrieveTestBytes, retrieveBytes. rewrite Hc. cbn -[retrieveLoop checkLoop].
  destruct (retrieveLoop_silent (PosDef.Pos.to_nat 2048) 0 (stackBytes P (env w)) w Hc Hf)
    as [R1 _].
  destruct (retrieveLoop (retrieveTestByte P) 0 (PosDef.Pos.to_nat 2048)
              (stackBytes P (env w)) w) as [tb w1] eqn:Er.
  try rewrite Er in R1. cbn [fst] in R1. cbn [negb].
  change 2048%nat with (S (S 2046)). apply checkLoop_zeros.
  - apply R1. lia.
  - apply R1. lia.
Qed.

End SilentDevice.

End Proofs.

(** ** The concrete platforms *)

Lemma freqBus_counting (good f : Z) : f <= good ->
  forall e c, exists e', xfer (freqBus good) e f c = (Some ((fun x => x) e), e') /\
                         (fun x => x) e' = (fun x : Z => x) e + 1.
Proof.
  intros Hf e c. exists (e + 1). cbn. replace (f <=? good) with true by lia. auto.
Qed.

Lemma freqBus_silent (good f : Z) : good < f ->
  forall e c, exists e', xfer (freqBus good) e f c = (Some 0, e').
Proof.
  intros Hf e c. exists (e + 1). cbn. replace (f <=? good) with false by lia. auto.
Qed.

Lemma executeCommand_transfer_count_witness :
  deviceConnected (freshSession (counterBus (-1))) = true /\
  transfers (snd (executeCommand (counterBus (-1)) 108 0 (freshSession (counterBus (-1)))))
    = 2%nat.
Proof.
  split; [vm_compute; reflexivity|].
  destruct (executeCommand_transfer_count (counterBus (-1)) 108 0
            (freshSession (counterBus (-1)))
            (fst (fst (executeCommand (counterBus (-1)) 108 0 (freshSession (counterBus (-1))))))
            (snd (fst (executeCommand (counterBus (-1)) 108 0 (freshSession (counterBus (-1))))))
            (snd (executeCommand (counterBus (-1)) 108 0 (freshSession (counterBus (-1)))))
            ltac:(vm_compute; reflexivity) ltac:(vm_compute; reflexivity))
    as (_ & _ & H2 & _).
  rewrite (H2 ltac:(vm_compute; discriminate) ltac:(vm_compute; reflexivity)).
  vm_compute. reflexivity.
Defined.

(** C1 fails as stated: on a freshly connected session, before any transfer,
    [executeCommand(0)] succeeds with a single transfer. *)
Lemma executeCommand_zero_fresh_counterexample :
  transfers (freshSession (counterBus (-1))) = 0%nat /\
  fst (fst (executeCommand (counterBus (-1)) 0 0 (freshSession (counterBus (-1))))) = true /\
  transfers (snd (executeCommand (counterBus (-1)) 0 0 (freshSession (counterBus (-1)))))
    = 1%nat.
Proof. vm_compute. repeat split. Qed.

Lemma executeCommand_failed_keeps_command_witness :
  fst (fst (executeCommand deadBus 108 0 (freshSession deadBus))) = false /\
  lastSentCommand (snd (executeCommand deadBus 108 0 (freshSession deadBus))) = 108.
Proof.
  split; [vm_compute; reflexivity|].
  exact (proj1 (executeCommand_failed_keeps_command deadBus 108 0 (freshSession deadBus)
    (fst (fst (executeCommand deadBus 108 0 (freshSession deadBus))))
    (snd (fst (executeCommand deadBus 108 0 (freshSession deadBus))))
    (snd (executeCommand deadBus 108 0 (freshSession deadBus)))
    ltac:(vm_compute; reflexivity) ltac:(vm_compute; reflexivity))).
Defined.

Lemma disconnected_operations_fail_witness :
  deviceConnected (constructSession (0 : Z)) = false /\
  validateDevice (counterBus (-1)) (constructSession 0) = (false, constructSession 0).
Proof.
  split; [reflexivity|].
  destruct (disconnected_operations_fail (counterBus (-1)) (constructSession 0)
              ltac:(vm_compute; reflexivity)) as (_ & _ & _ & _ & _ & _ & _ & _ & _ & _ & _ & H & _).
  exact H.
Defined.

(** C7 fails as stated for the clock-frequency setter: on a disconnected
    session it does not fail but stores the new frequency. *)
Lemma setMaxClockFrequency_disconnected_counterexample :
  deviceConnected (constructSession (0 : Z)) = false /\
  clockHz (constructSession (0 : Z)) = 250000 /\
  clockHz (snd (setMaxClockFrequency 1000000 (constructSession (0 : Z)))) = 1000000 /\
  lastError (snd (setMaxClockFrequency 1000000 (constructSession (0 : Z)))) =
    lastError (constructSession (0 : Z)).
Proof. vm_compute. repeat split. Qed.

Lemma retrieveBytes_nonpositive_witness :
  (0 <= 0) /\
  retrieveRandomBytes (counterBus (-1)) 0 (fun _ => 7) (freshSession (counterBus (-1))) =
    ((false, fun _ => 7),
     snd (setErrMsg "Invalid ammount of random bytes requested" (freshSession (counterBus (-1))))).
Proof.
  split; [lia|].
  exact (proj1 (retrieveBytes_nonpositive (counterBus (-1)) (freshSession (counterBus (-1)))
    0 (fun _ => 7) ltac:(vm_compute; reflexivity) ltac:(lia))).
Defined.

Lemma validateDevice_iff_incrementing_witness :
  fst (validateDevice (counterBus (-1)) (freshSession (counterBus (-1)))) = true.
Proof.
  apply (proj2 (validateDevice_iff_incrementing (counterBus (-1))
                  (freshSession (counterBus (-1))) ltac:(vm_compute; reflexivity))).
  exists (map Z.of_nat (seq 1 16)). vm_compute. repeat split.
Defined.

(** The session states and bytes of the first two random-byte retrievals
    on [counterBus 2]: the first succeeds, the second fails. *)
Lemma retrieveRandomBytes_partial_write_witness :
  snd (fst (retrieveRandomBytes (counterBus 2) 3 (fun _ => 7) (freshSession (counterBus 2)))) 0
    = 1 /\
  snd (fst (retrieveRandomBytes (counterBus 2) 3 (fun _ => 7) (freshSession (counterBus 2)))) 2
    = 7.
Proof.
  destruct (retrieveRandomBytes_partial_write (counterBus 2) 3 1 (fun _ => 7)
    (fun i => match i with
              | O => freshSession (counterBus 2)
              | S O => snd (retrieveRandomByte (counterBus 2) 7 (freshSession (counterBus 2)))
              | _ => snd (retrieveRandomByte (counterBus 2) 7
                       (snd (retrieveRandomByte (counterBus 2) 7 (freshSession (counterBus 2)))))
              end)
    (fun _ => 1) 0
    ltac:(vm_compute; reflexivity) ltac:(lia)
    ltac:(intros i Hi; destruct i as [|i]; [vm_compute; reflexivity | lia])
    ltac:(vm_compute; reflexivity)) as (_ & H1 & _ & H3).
  split.
  - exact (H1 0 ltac:(lia)).
  - exact (H3 2 ltac:(lia)).
Defined.

(** C9 fails as stated: when the very first retrieval fails, position 0 is
    not left untouched but set to 0. *)
Lemma retrieveRandomBytes_failed_cell_counterexample :
  fst (fst (retrieveRandomByte deadBus 7 (freshSession deadBus))) = false /\
  snd (fst (retrieveRandomBytes deadBus 2 (fun _ => 7) (freshSession deadBus))) 0 = 0 /\
  snd (fst (retrieveRandomBytes deadBus 2 (fun _ => 7) (freshSession deadBus))) 1 = 7.
Proof. vm_compute. repeat split. Qed.

Lemma autodetect_keeps_last_good_witness :
  fst (autodetectMaxFrequency (freqBus 1250000) (freshSession (freqBus 1250000))) = true /\
  clockHz (snd (autodetectMaxFrequency (freqBus 1250000) (freshSession (freqBus 1250000))))
    = Z.of_nat 5 * minClockHz.
Proof.
  apply (autodetect_keeps_last_good (freqBus 1250000) 5 (freshSession (freqBus 1250000))).
  - vm_compute. reflexivity.
  - lia.
  - unfold minClockHz, maxClockHz. lia.
  - intros i w Hi Hc Hf.
    apply (validateCommunication_counting (freqBus 1250000) (Z.of_nat i * minClockHz)
             (fun x => x)); auto.
    apply freqBus_counting. unfold minClockHz. lia.
  - intros w Hc Hf.
    apply (validateCommunication_silent (freqBus 1250000) (Z.of_nat 6 * minClockHz)); auto.
    apply freqBus_silent. unfold minClockHz. lia.
Defined.

Lemma autodetect_first_step_fails_witness :
  fst (autodetectMaxFrequency (freqBus 0) (freshSession (freqBus 0))) = false /\
  clockHz (snd (autodetectMaxFrequency (freqBus 0) (freshSession (freqBus 0)))) =
    clockHz (freshSession (freqBus 0)).
Proof.
  apply (autodetect_first_step_fails (freqBus 0) (freshSession (freqBus 0))).
  - vm_compute. reflexivity.
  - intros w Hc Hf.
    apply (validateCommunication_silent (freqBus 0) minClockHz); auto.
    apply freqBus_silent. unfold minClockHz. lia.
Defined.

(** C6 fails as stated: when the first step fails, the clock is not left at
    the failing step's frequency (250000 Hz) but restored to the frequency
    held before the call. *)
Lemma autodetect_restores_prior_clock_counterexample :
  fst (validateCommunication (freqBus 0)
         (snd (setMaxClockFrequency minClockHz
                 (snd (setMaxClockFrequency 1000000 (freshSession (freqBus 0))))))) = false /\
  fst (autodetectMaxFrequency (freqBus 0)
         (snd (setMaxClockFrequency 1000000 (freshSession (freqBus 0))))) = false /\
  clockHz (snd (autodetectMaxFrequency (freqBus 0)
         (snd (setMaxClockFrequency 1000000 (freshSession (freqBus 0)))))) = 1000000 /\
  1000000 <> minClockHz.
Proof. vm_compute. repeat split. discriminate. Qed.

(** C2: the multi-byte retrievals report success although a single-byte
    retrieval failed.  On a bus whose transfers all fail, the loop stops
    after the first transfer, yet [retrieveRandomBytes],
    [retrieveRawRandomBytes] and [retrieveTestBytes] return true: the
    [bool status] declared in the loop hides the [status] that is
    returned. *)
Theorem retrieveBytes_failure_reported_as_success :
  fst (fst (retrieveRandomByte deadBus 7 (freshSession deadBus))) = false /\
  fst (fst (retrieveRandomBytes deadBus 4 (fun _ => 7) (freshSession deadBus))) = true /\
  transfers (snd (retrieveRandomBytes deadBus 4 (fun _ => 7) (freshSession deadBus))) = 1%nat /\
  fst (fst (retrieveRawRandomBytes deadBus 4 (fun _ => 7) (freshSession deadBus))) = true /\
  fst (fst (retrieveTestBytes deadBus 4 (fun _ => 7) (freshSession deadBus))) = true.
Proof. vm_compute. repeat split. Qed.

(** C3: [validateCommunication] succeeds although its last sample could not
    be fetched.  On [counterBus 2048] the transfer that should deliver test
    byte 2047 fails (so the error message is set); the failure is not
    reported (the defect of C2) and the 0 that exhangeByte left in that
    cell happens to continue the run 1, 2, ..., 255, 0, ..., 255, 0. *)
Theorem validateCommunication_passes_with_failed_transfer :
  xfer (counterBus 2048) 2048 minClockHz testCommand = (None, 2049) /\
  fst (validateCommunication (counterBus 2048) (freshSession (counterBus 2048))) = true /\
  transfers (snd (validateCommunication (counterBus 2048) (freshSession (counterBus 2048))))
    = 2049%nat /\
  lastError (snd (validateCommunication (counterBus 2048) (freshSession (counterBus 2048))))
    = "Could not exchange SPI bytes"%string.
Proof. vm_compute. repeat split. Qed.

(** * Further properties of the driver *)

Section DriverFacts.
Context {Env : Type} (P : Platform Env).

Ltac unf := unfold bind, ret in *.

Lemma connectSteps_first (e : Env) : forall msgs k n,
  (n < List.length msgs)%nat ->
  (forall m, (m < n)%nat -> spiCallOk P e (k + m) = true) ->
  spiCallOk P e (k + n) = false ->
  connectSteps P e k msgs = Some (nth n msgs ""%string).
Proof.
  induction msgs as [|msg rest IH]; intros k n Hn Hok Hf; cbn in Hn; [lia|].
  cbn [connectSteps]. destruct n as [|n].
  - rewrite Nat.add_0_r in Hf. rewrite Hf. reflexivity.
  - assert (H0 := Hok 0%nat ltac:(lia)). rewrite Nat.add_0_r in H0. rewrite H0.
    cbn [nth]. apply IH; [lia| |].
    + intros m Hm. replace (S k + m)%nat with (k + S m)%nat by lia. apply Hok. lia.
    + replace (S k + n)%nat with (k + S n)%nat by lia. exact Hf.
Qed.


(** [connect] on a disconnected session stops at the first of its seven
    steps ([open] and six configuration [ioctl]s) that fails: the session
    stays disconnected and the error message is that step's message; clock
    rate, last command and transfer count are unchanged. *)
Theorem connect_failure_first_step (path : string) (w : World Env) (n : nat)
  (Hd : deviceConnected w = false) (Hn : (n < 7)%nat)
  (Hok : forall m, (m < n)%nat -> spiCallOk P (env w) m = true)
  (Hf : spiCallOk P (env w) n = false) :
  connect P path w =
    (false, mkWorld false (clockHz w) (lastSentCommand w)
              (nth n (connectMessages path) ""%string) (transfers w) (env w)).
Proof.
  unfold connect, isConnected, clearErrMsg, setErrMsg. unf. rewrite Hd.
  cbn -[connectSteps connectMessages].
  rewrite (connectSteps_first (env w) (connectMessages path) 0 n);
    [rewrite Hd; reflexivity | cbn; lia | exact Hok | exact Hf].
Qed.




Lemma exhangeByte_err (cmd rx : Z) (w : World Env) ok r w' :
  deviceConnected w = true ->
  exhangeByte P cmd rx w = ((ok, r), w') ->
  (ok = true -> lastError w' = lastError w) /\
  (ok = false -> r = 0 /\ lastError w' = "Could not exchange SPI bytes"%string).
Proof.
  intros Hc Hx. unfold exhangeByte in Hx. rewrite Hc in Hx. cbn in Hx.
  destruct (xfer P (env w) (clockHz w) cmd) as [[b|] e'];
    inversion Hx; subst; cbn; split; intros; auto; discriminate.
Qed.

Lemma executeCommand_err (cmd rx : Z) (w : World Env) ok r w'
  (Hc : deviceConnected w = true)
  (Hx : executeCommand P cmd rx w = ((ok, r), w')) :
  (ok = true -> lastError w' = lastError w) /\
  (ok = false -> r = 0 /\ lastError w' = "Could not exchange SPI bytes"%string).
Proof.
  unfold executeCommand in Hx. rewrite Hc in Hx. cbn in Hx.
  destruct (cmd =? lastSentCommand w); cbn in Hx.
  - exact (exhangeByte_err _ _ _ _ _ _ Hc Hx).
  - unf. destruct (exhangeByte P cmd rx w) as [[ok1 r1] w1] eqn:E1.
    destruct (exhangeByte_post P _ _ _ _ _ _ Hc E1) as (H1 & _).
    destruct (exhangeByte_err _ _ _ _ _ _ Hc E1) as [G1 G2].
    destruct ok1; cbn in Hx.
    + destruct (exhangeByte_err _ _ _ _ _ _ H1 Hx) as [K1 K2].
      split; intros; [rewrite K1, G1 by auto|]; auto.
    + inversion Hx; subst. split; [discriminate|auto].
Qed.

(** On a connected session [executeCommand] either succeeds and leaves the
    error message as it was (a stale message is not cleared), or fails with
    output byte 0 and the message "Could not exchange SPI bytes". *)
Theorem executeCommand_error_message (cmd rx : Z) (w : World Env) ok r w'
  (Hc : deviceConnected w = true)
  (Hx : executeCommand P cmd rx w = ((ok, r), w')) :
  (ok = true -> lastError w' = lastError w) /\
  (ok = false -> r = 0 /\ lastError w' = "Could not exchange SPI bytes"%string).
Proof. exact (executeCommand_err cmd rx w ok r w' Hc Hx). Qed.

Lemma retrieveLoop_frame (one : Z -> M Env (bool * Z)) : forall fuel i rx (w : World Env) j,
  j < i \/ i + Z.of_nat fuel <= j ->
  fst (retrieveLoop one i fuel rx w) j = rx j.
Proof.
  induction fuel as [|fuel IH]; intros i rx w j Hj; [reflexivity|].
  cbn [retrieveLoop]. unf. destruct (one (rx i) w) as [[st b] w1].
  destruct st; cbn -[retrieveLoop].
  - rewrite IH by lia. unfold upd. destruct (Z.eqb_spec j i); [lia|reflexivity].
  - unfold upd. destruct (Z.eqb_spec j i); [lia|reflexivity].
Qed.

Lemma retrieveBytes_frame (one : Z -> M Env (bool * Z)) msg len rx (w : World Env) j :
  j < 0 \/ len <= j -> snd (fst (retrieveBytes one msg len rx w)) j = rx j.
Proof.
  intros Hj. unfold retrieveBytes.
  destruct (deviceConnected w); cbn -[retrieveLoop]; [|reflexivity].
  destruct (Z.leb_spec len 0); cbn -[retrieveLoop]; [reflexivity|].
  pose proof (retrieveLoop_frame one (Z.to_nat len) 0 rx w j) as F.
  destruct (retrieveLoop one 0 (Z.to_nat len) rx w) as [rx' w']. cbn in *.
  apply F. rewrite Z2Nat.id by lia. lia.
Qed.

(** The three multi-byte retrievals never write outside [rx[0..len-1]],
    whatever the session, the count and the device do. *)
Theorem retrieveBytes_write_bounds (w : World Env) (len : Z) (buf : Buf) (j : Z)
  (Hj : j < 0 \/ len <= j) :
  snd (fst (retrieveRandomBytes P len buf w)) j = buf j /\
  snd (fst (retrieveRawRandomBytes P len buf w)) j = buf j /\
  snd (fst (retrieveTestBytes P len buf w)) j = buf j.
Proof.
  unfold retrieveRandomBytes, retrieveRawRandomBytes, retrieveTestBytes.
  repeat split; apply retrieveBytes_frame; exact Hj.
Qed.

Section HealthyBus.
(** Every transfer succeeds, whatever it answers. *)
Hypothesis Hall : forall e hz c, exists b e', xfer P e hz c = (Some b, e').

Lemma exhangeByte_healthy (cmd rx : Z) (w : World Env) :
  deviceConnected w = true ->
  exists b e', exhangeByte P cmd rx w =
    ((true, b), mkWorld true (clockHz w) cmd (lastError w) (S (transfers w)) e') /\
    0 <= b < 256.
Proof.
  intros Hc. unfold exhangeByte. rewrite Hc. cbn.
  destruct (Hall (env w) (clockHz w) cmd) as (b & e' & E). rewrite E.
  exists (u8 b), e'. split; [reflexivity|]. apply Z.mod_pos_bound. lia.
Qed.

Lemma guarded_healthy (cmd rx : Z) (w : World Env) :
  deviceConnected w = true ->
  exists b w', guarded P cmd rx w = ((true, b), w') /\ 0 <= b < 256 /\
    deviceConnected w' = true /\ lastSentCommand w' = cmd /\
    clockHz w' = clockHz w /\ lastError w' = lastError w /\
    transfers w' = (transfers w + (if Z.eqb cmd (lastSentCommand w) then 1 else 2))%nat.
Proof.
  intros Hc. unfold guarded, executeCommand. rewrite Hc. cbn.
  destruct (Z.eqb_spec cmd (lastSentCommand w)); cbn.
  - destruct (exhangeByte_healthy cmd rx w Hc) as (b & e1 & E & Hb).
    rewrite E. eexists b, _. split; [reflexivity|]. cbn. repeat split; auto; lia.
  - unf. destruct (exhangeByte_healthy cmd rx w Hc) as (b & e1 & E & Hb).
    rewrite E. cbn -[exhangeByte].
    destruct (exhangeByte_healthy cmd b
                (mkWorld true (clockHz w) cmd (lastError w) (S (transfers w)) e1)
                eq_refl) as (b2 & e2 & E2 & Hb2).
    rewrite E2. eexists b2, _. split; [reflexivity|]. cbn. repeat split; auto; lia.
Qed.

Lemma retrieveLoop_healthy (cmd : Z) : forall fuel i rx (w : World Env) rx' w',
  deviceConnected w = true ->
  retrieveLoop (guarded P cmd) i fuel rx w = (rx', w') ->
  deviceConnected w' = true /\
  transfers w' = (transfers w + fuel +
    (if Nat.eqb fuel 0 then 0 else if Z.eqb cmd (lastSentCommand w) then 0 else 1))%nat /\
  (fuel <> 0%nat -> lastSentCommand w' = cmd) /\
  (forall j, i <= j < i + Z.of_nat fuel -> 0 <= rx' j < 256).
Proof.
  induction fuel as [|fuel IH]; intros i rx w rx' w' Hc Hx.
  - cbn in Hx. inversion Hx; subst. split; [auto|]. split; [cbn; lia|].
    split; [intros H; contradiction H; reflexivity | intros j Hj; cbn in Hj; lia].
  - cbn [retrieveLoop] in Hx. unf.
    destruct (guarded_healthy cmd (rx i) w Hc)
      as (b & w1 & E & Hb & Hc1 & Hl1 & _ & _ & Ht1).
    rewrite E in Hx. cbn -[retrieveLoop] in Hx.
    pose proof (retrieveLoop_frame (guarded P cmd) fuel (i + 1) (upd rx i b) w1 i)
      as Fr.
    rewrite Hx in Fr. cbn in Fr.
    destruct (IH (i + 1) (upd rx i b) w1 rx' w' Hc1 Hx) as (H1 & H2 & H3 & H4).
    split; [exact H1|]. split; [|split].
    + rewrite H2, Ht1, Hl1, Z.eqb_refl. cbv [Nat.eqb].
      destruct fuel; destruct (cmd =? lastSentCommand w); lia.
    + intros _. destruct fuel as [|f].
      * cbn in Hx. injection Hx as _ <-. exact Hl1.
      * apply H3. discriminate.
    + intros j Hj. destruct (Z.eq_dec j i) as [->|Hne].
      * rewrite Fr by lia. unfold upd. rewrite Z.eqb_refl. exact Hb.
      * apply H4. lia.
Qed.

Lemma retrieveBytes_healthy (cmd : Z) msg (n : Z) (buf : Buf) (w : World Env) :
  deviceConnected w = true -> 0 < n ->
  fst (fst (retrieveBytes (guarded P cmd) msg n buf w)) = true /\
  transfers (snd (retrieveBytes (guarded P cmd) msg n buf w)) =
    (transfers w + Z.to_nat n + (if Z.eqb cmd (lastSentCommand w) then 0 else 1))%nat /\
  lastSentCommand (snd (retrieveBytes (guarded P cmd) msg n buf w)) = cmd /\
  (forall j, 0 <= j < n -> 0 <= snd (fst (retrieveBytes (guarded P cmd) msg n buf w)) j < 256).
Proof.
  intros Hc Hn. unfold retrieveBytes. rewrite Hc.
  replace (n <=? 0) with false by (symmetry; apply Z.leb_gt; lia). cbn -[retrieveLoop].
  destruct (retrieveLoop (guarded P cmd) 0 (Z.to_nat n) buf w) as [rx' w'] eqn:E.
  destruct (retrieveLoop_healthy cmd _ _ _ _ _ _ Hc E) as (_ & H2 & H3 & H4).
  cbn. split; [reflexivity|]. split; [|split].
  - rewrite H2. destruct (Nat.eqb_spec (Z.to_nat n) 0); [lia|reflexivity].
  - apply H3. lia.
  - intros j Hj. apply H4. rewrite Z2Nat.id by lia. lia.
Qed.

End HealthyBus.

(** On a bus where every transfer succeeds, a retrieval of [n > 0] bytes
    from a connected session succeeds, makes [n] transfers when the
    variant's command was the last one sent and [n + 1] otherwise, leaves
    that command as the last one sent, and fills [rx[0..n-1]] with byte
    values. *)
Theorem retrieveBytes_healthy_bus (w : World Env) (n : Z) (buf : Buf)
  (Hall : forall e hz c, exists b e', xfer P e hz c = (Some b, e'))
  (Hc : deviceConnected w = true) (Hn : 0 < n) :
  (fst (fst (retrieveRandomBytes P n buf w)) = true /\
   transfers (snd (retrieveRandomBytes P n buf w)) =
     (transfers w + Z.to_nat n +
      (if Z.eqb randomByteCommand (lastSentCommand w) then 0 else 1))%nat /\
   lastSentCommand (snd (retrieveRandomBytes P n buf w)) = randomByteCommand /\
   (forall j, 0 <= j < n -> 0 <= snd (fst (retrieveRandomBytes P n buf w)) j < 256)) /\
  (fst (fst (retrieveRawRandomBytes P n buf w)) = true /\
   transfers (snd (retrieveRawRandomBytes P n buf w)) =
     (transfers w + Z.to_nat n +
      (if Z.eqb rawRandomByteCommand (lastSentCommand w) then 0 else 1))%nat /\
   lastSentCommand (snd (retrieveRawRandomBytes P n buf w)) = rawRandomByteCommand /\
   (forall j, 0 <= j < n -> 0 <= snd (fst (retrieveRawRandomBytes P n buf w)) j < 256)) /\
  (fst (fst (retrieveTestBytes P n buf w)) = true /\
   transfers (snd (retrieveTestBytes P n buf w)) =
     (transfers w + Z.to_nat n + (if Z.eqb testCommand (lastSentCommand w) then 0 else 1))%nat /\
   lastSentCommand (snd (retrieveTestBytes P n buf w)) = testCommand /\
   (forall j, 0 <= j < n -> 0 <= snd (fst (retrieveTestBytes P n buf w)) j < 256)).
Proof.
  unfold retrieveRandomBytes, retrieveRawRandomBytes, retrieveTestBytes,
    retrieveRandomByte, retrieveRawRandomByte, retrieveTestByte.
  split; [|split]; apply retrieveBytes_healthy; auto.
Qed.

Lemma validateDeviceLoop_msg : forall fuel i bg (w : World Env),
  deviceConnected w = true ->
  deviceConnected (snd (validateDeviceLoop P i fuel bg w)) = true /\
  (fst (validateDeviceLoop P i fuel bg w) = false ->
   lastError (snd (validateDeviceLoop P i fuel bg w)) = "Could not exchange SPI bytes"%string \/
   lastError (snd (validateDeviceLoop P i fuel bg w)) = "MicroRNG device not found"%string).
Proof.
  induction fuel as [|fuel IH]; intros i bg w Hc; [cbn; split; [auto|discriminate]|].
  cbn [validateDeviceLoop]. unf.
  destruct (executeCommand P 116 0 w) as [[ok t] w1] eqn:E.
  destruct (executeCommand_post P _ _ _ _ _ _ Hc E) as (Hc1 & _).
  destruct (executeCommand_err _ _ _ _ _ _ Hc E) as [_ Herr].
  destruct ok; cbn -[validateDeviceLoop].
  - destruct (negb (i =? 1) && negb (t =? u8 ((if i =? 1 then t else bg) + 1)));
      cbn -[validateDeviceLoop]; [split; auto|apply IH; exact Hc1].
  - split; [exact Hc1|]. intros _. left. apply Herr. reflexivity.
Qed.

Lemma validateDevice_msg (w : World Env) :
  deviceConnected w = true ->
  deviceConnected (snd (validateDevice P w)) = true /\
  (fst (validateDevice P w) = false ->
   lastError (snd (validateDevice P w)) = "Could not exchange SPI bytes"%string \/
   lastError (snd (validateDevice P w)) = "MicroRNG device not found"%string).
Proof.
  intros Hc. unfold validateDevice. rewrite Hc. cbn -[validateDeviceLoop].
  apply validateDeviceLoop_msg. exact Hc.
Qed.

(** On a connected session, a failing [validateDevice] leaves one of two
    error messages: "Could not exchange SPI bytes" (a transfer failed) or
    "MicroRNG device not found" (a response broke the sequence); the
    session stays connected. *)
Theorem validateDevice_failure_message (w : World Env)
  (Hc : deviceConnected w = true) :
  deviceConnected (snd (validateDevice P w)) = true /\
  (fst (validateDevice P w) = false ->
   lastError (snd (validateDevice P w)) = "Could not exchange SPI bytes"%string \/
   lastError (snd (validateDevice P w)) = "MicroRNG device not found"%string).
Proof. exact (validateDevice_msg w Hc). Qed.

Lemma checkLoop_false_msg : forall fuel i e tb (w : World Env),
  fst (checkLoop i fuel e tb w) = false ->
  lastError (snd (checkLoop i fuel e tb w)) = "Could not validate SPI communication"%string.
Proof.
  induction fuel as [|fuel IH]; intros i e tb w H; [discriminate|].
  cbn [checkLoop] in *. destruct (i =? 0); [apply IH; exact H|].
  destruct (negb (u8 (e + 1) =? tb i)); [reflexivity|apply IH; exact H].
Qed.

Lemma retrieveBytes_status (one : Z -> M Env (bool * Z)) msg len rx (w : World Env) :
  deviceConnected w = true -> 0 < len ->
  fst (fst (retrieveBytes one msg len rx w)) = true.
Proof.
  intros Hc Hn. unfold retrieveBytes. rewrite Hc.
  replace (len <=? 0) with false by (symmetry; apply Z.leb_gt; lia). cbn -[retrieveLoop].
  destruct (retrieveLoop one 0 (Z.to_nat len) rx w). reflexivity.
Qed.

(** On a connected session, a failing [validateCommunication] always
    reports "Could not validate SPI communication": a failed transfer
    during the sampling is not reported as such (its message is
    overwritten when the check then fails). *)
Theorem validateCommunication_failure_message (w : World Env)
  (Hc : deviceConnected w = true)
  (Hf : fst (validateCommunication P w) = false) :
  lastError (snd (validateCommunication P w)) = "Could not validate SPI communication"%string.
Proof.
  revert Hf. unfold validateCommunication. rewrite Hc. cbn -[retrieveTestBytes checkLoop].
  pose proof (retrieveBytes_status (retrieveTestByte P)
                "Invalid amount of test bytes requested" 2048 (stackBytes P (env w)) w
                Hc ltac:(lia)) as Hs.
  unfold retrieveTestBytes.
  destruct (retrieveBytes (retrieveTestByte P) "Invalid amount of test bytes requested"
              2048 (stackBytes P (env w)) w) as [[ok tb] w1].
  cbn in Hs. subst ok. cbn -[checkLoop]. apply checkLoop_false_msg.
Qed.

Lemma autodetectLoop_outcome : forall fuel (j : nat) succ (w : World Env),
  deviceConnected w = true -> (1 <= j)%nat ->
  (succ = true -> exists k, 1 <= k <= 239 /\ clockHz w = k * minClockHz) ->
  deviceConnected (snd (autodetectLoop P (Z.of_nat j * minClockHz) fuel succ w)) = true /\
  (fst (autodetectLoop P (Z.of_nat j * minClockHz) fuel succ w) = false ->
     succ = false /\
     clockHz (snd (autodetectLoop P (Z.of_nat j * minClockHz) fuel succ w)) = clockHz w) /\
  (fst (autodetectLoop P (Z.of_nat j * minClockHz) fuel succ w) = true ->
     exists k, 1 <= k <= 239 /\
     clockHz (snd (autodetectLoop P (Z.of_nat j * minClockHz) fuel succ w)) = k * minClockHz).
Proof.
  induction fuel as [|fuel IH]; intros j succ w Hc Hj Hs.
  - cbn. split; [exact Hc|]. split; [intros ->; auto|intros ->; auto].
  - cbn [autodetectLoop].
    destruct (Z.ltb_spec (Z.of_nat j * minClockHz) maxClockHz) as [Hlt|Hge];
      cbn -[validateCommunication autodetectLoop].
    2: { split; [exact Hc|]. split; [intros ->; auto|intros ->; auto]. }
    unfold getMaxClockFrequency, setMaxClockFrequency. unf.
    cbn -[validateCommunication autodetectLoop].
    match goal with |- context [validateCommunication P ?w1] =>
      assert (Hc1 : deviceConnected w1 = true) by exact Hc;
      assert (Hk1 : clockHz w1 = Z.of_nat j * minClockHz) by reflexivity;
      pose proof (validateCommunication_pres P w1 Hc1) as [Hc2 Hk2];
      destruct (validateCommunication P w1) as [st w2]
    end.
    cbn in Hc2, Hk2. destruct st; cbn -[autodetectLoop].
    + replace (Z.of_nat j * minClockHz + minClockHz) with (Z.of_nat (S j) * minClockHz)
        by lia.
      destruct (IH (S j) true w2 Hc2 ltac:(lia)) as (R1 & R2 & R3).
      { intros _. exists (Z.of_nat j). unfold minClockHz, maxClockHz in *.
        split; [lia|]. rewrite Hk2. try rewrite Hk1. reflexivity. }
      split; [exact R1|]. split; [|exact R3].
      intros H. destruct (R2 H). discriminate.
    + split; [exact Hc2|]. split.
      * intros ->. auto.
      * intros ->. destruct (Hs eq_refl) as (k & Hk & Hw). exists k. auto.
Qed.

(** On a connected session, [autodetectMaxFrequency] keeps the session
    connected and either fails with the clock frequency it found, or
    succeeds with the clock at a multiple [k * 250000] Hz, [1 <= k <= 239],
    that is below the 60 MHz ceiling, whatever the device does. *)
Theorem autodetect_outcome (w : World Env) (Hc : deviceConnected w = true) :
  deviceConnected (snd (autodetectMaxFrequency P w)) = true /\
  (fst (autodetectMaxFrequency P w) = false ->
     clockHz (snd (autodetectMaxFrequency P w)) = clockHz w) /\
  (fst (autodetectMaxFrequency P w) = true ->
     exists k, 1 <= k <= 239 /\
     clockHz (snd (autodetectMaxFrequency P w)) = k * minClockHz /\
     clockHz (snd (autodetectMaxFrequency P w)) < maxClockHz).
Proof.
  unfold autodetectMaxFrequency. rewrite Hc. cbn -[autodetectLoop].
  replace (autodetectLoop P minClockHz 240 false w)
    with (autodetectLoop P (Z.of_nat 1 * minClockHz) 240 false w) by reflexivity.
  destruct (autodetectLoop_outcome 240 1 false w Hc ltac:(lia)
              ltac:(discriminate)) as (R1 & R2 & R3).
  split; [exact R1|]. split.
  - intros H. apply (R2 H).
  - intros H. destruct (R3 H) as (k & Hk & Hw). exists k.
    unfold minClockHz, maxClockHz in *. split; [exact Hk|]. split; [exact Hw|]. lia.
Qed.

(** No protocol operation disconnects a connected session, whatever the
    bus does: only [disconnect] does. *)
Theorem connected_stays_connected (w : World Env) (Hc : deviceConnected w = true) :
  (forall cmd rx, deviceConnected (snd (executeCommand P cmd rx w)) = true) /\
  (forall cmd rx, deviceConnected (snd (guarded P cmd rx w)) = true) /\
  (forall len buf, deviceConnected (snd (retrieveRandomBytes P len buf w)) = true) /\
  (forall len buf, deviceConnected (snd (retrieveRawRandomBytes P len buf w)) = true) /\
  (forall len buf, deviceConnected (snd (retrieveTestBytes P len buf w)) = true) /\
  deviceConnected (snd (validateDevice P w)) = true /\
  deviceConnected (snd (validateCommunication P w)) = true /\
  deviceConnected (snd (autodetectMaxFrequency P w)) = true /\
  (forall hz, deviceConnected (snd (setMaxClockFrequency hz w)) = true).
Proof.
  assert (Hg : forall cmd rx (w0 : World Env) ok r w', deviceConnected w0 = true ->
            guarded P cmd rx w0 = ((ok, r), w') ->
            deviceConnected w' = true /\ clockHz w' = clockHz w0).
  { intros cmd rx w0 ok r w' H0 Hx. destruct (guarded_post P _ _ _ _ _ _ H0 Hx) as (? & ? & _).
    auto. }
  split; [|split; [|split; [|split; [|split; [|split; [|split; [|split]]]]]]].
  - intros cmd rx. destruct (executeCommand P cmd rx w) as [[ok r] w'] eqn:E.
    apply (executeCommand_post P _ _ _ _ _ _ Hc E).
  - intros cmd rx. destruct (guarded P cmd rx w) as [[ok r] w'] eqn:E.
    apply (Hg _ _ _ _ _ _ Hc E).
  - intros len buf. apply retrieveBytes_pres; auto. apply Hg.
  - intros len buf. apply retrieveBytes_pres; auto. apply Hg.
  - intros len buf. apply retrieveBytes_pres; auto. apply Hg.
  - apply validateDevice_msg. exact Hc.
  - apply validateCommunication_pres. exact Hc.
  - unfold autodetectMaxFrequency. rewrite Hc. cbn -[autodetectLoop].
    exact (proj1 (autodetectLoop_outcome 240 1 false w Hc ltac:(lia) ltac:(discriminate))).
  - intros hz. exact Hc.
Qed.

End DriverFacts.

Section CliFacts.
Context {Env : Type} (P : Platform Env) (L : Libc).

Lemma retrieveRandomBytes_conn (len : Z) (buf : Buf) (w : World Env) :
  deviceConnected w = true -> deviceConnected (snd (retrieveRandomBytes P len buf w)) = true.
Proof.
  intros Hc. apply retrieveBytes_pres; auto.
  intros rx w0 ok r w' H0 Hx. destruct (guarded_post P _ _ _ _ _ _ H0 Hx) as (? & ? & _). auto.
Qed.

Lemma spiRetrieve_ok (len : Z) (buf : Buf) (s : Cli Env) :
  deviceConnected (spi s) = true -> 0 < len ->
  exists buf' w', spiRetrieve P len buf s = (true, buf', setSpi w' s) /\
    deviceConnected w' = true.
Proof.
  intros Hc Hn. unfold spiRetrieve.
  pose proof (retrieveBytes_status (retrieveRandomByte P)
    "Invalid ammount of random bytes requested" len buf (spi s) Hc Hn) as Hs.
  pose proof (retrieveRandomBytes_conn len buf (spi s) Hc) as Hw.
  unfold retrieveRandomBytes in *.
  destruct (retrieveBytes (retrieveRandomByte P) _ len buf (spi s)) as [[ok b'] w'].
  cbn in Hs, Hw. subst ok. eauto.
Qed.

Lemma spiRetrieve_nonpos (len : Z) (buf : Buf) (s : Cli Env) :
  deviceConnected (spi s) = true -> len <= 0 ->
  spiRetrieve P len buf s =
    (false, buf, setSpi (snd (setErrMsg "Invalid ammount of random bytes requested" (spi s))) s).
Proof.
  intros Hc Hn. unfold spiRetrieve, retrieveRandomBytes, retrieveBytes. rewrite Hc.
  replace (len <=? 0) with true by (symmetry; apply Z.leb_le; lia). reflexivity.
Qed.

Lemma writeBytes_length (buf : Buf) (n : Z) (s : Cli Env) :
  0 <= n ->
  Z.of_nat (List.length (written (writeBytes buf n s))) =
    Z.of_nat (List.length (written s)) + n.
Proof.
  intros Hn. unfold writeBytes. cbn [written].
  rewrite length_app, length_map, length_seq, Nat2Z.inj_add, Z2Nat.id; lia.
Qed.

Lemma closeHandle_props (s : Cli Env) :
  written (closeHandle s) = written s /\ pOutputFile (closeHandle s) = false /\
  spi (closeHandle s) = spi s.
Proof. unfold closeHandle. destruct (pOutputFile s) eqn:E; auto. Qed.

Lemma chunkLoop_ok : forall k (buf : Buf) (s : Cli Env),
  deviceConnected (spi s) = true ->
  exists buf' s', chunkLoop P k buf s = (true, buf', s') /\
    deviceConnected (spi s') = true /\
    Z.of_nat (List.length (written s')) =
      Z.of_nat (List.length (written s)) + Z.of_nat k * MCR_BUFF_FILE_SIZE_BYTES /\
    numGenBytes s' = numGenBytes s /\ pOutputFile s' = pOutputFile s.
Proof.
  induction k as [|k IH]; intros buf s Hc.
  - exists buf, s. cbn [chunkLoop]. repeat split; auto. lia.
  - cbn [chunkLoop].
    destruct (spiRetrieve_ok MCR_BUFF_FILE_SIZE_BYTES buf s Hc) as (b1 & w1 & E & Hw1);
      [unfold MCR_BUFF_FILE_SIZE_BYTES; lia|].
    rewrite E. cbn [negb].
    destruct (IH b1 (writeBytes b1 MCR_BUFF_FILE_SIZE_BYTES (setSpi w1 s)) Hw1)
      as (b2 & s2 & E2 & H1 & H2 & H3 & H4).
    exists b2, s2. rewrite E2. split; [reflexivity|]. split; [exact H1|].
    split; [|split; [rewrite H3; reflexivity | rewrite H4; reflexivity]].
    rewrite H2, writeBytes_length by (unfold MCR_BUFF_FILE_SIZE_BYTES; lia).
    unfold MCR_BUFF_FILE_SIZE_BYTES, setSpi. cbn [written]. lia.
Qed.

Lemma unlimitedLoop_running : forall rounds (buf : Buf) (s : Cli Env),
  numGenBytes s = -1 -> deviceConnected (spi s) = true ->
  fst (unlimitedLoop P rounds buf s) = None /\
  Z.of_nat (List.length (written (snd (unlimitedLoop P rounds buf s)))) =
    Z.of_nat (List.length (written s)) + Z.of_nat rounds * MCR_BUFF_FILE_SIZE_BYTES /\
  pOutputFile (snd (unlimitedLoop P rounds buf s)) = pOutputFile s.
Proof.
  induction rounds as [|r IH]; intros buf s Hn Hc.
  - cbn [unlimitedLoop]. rewrite Hn, Z.eqb_refl. cbn. repeat split; lia.
  - cbn [unlimitedLoop]. rewrite Hn, Z.eqb_refl. cbn [negb].
    destruct (spiRetrieve_ok MCR_BUFF_FILE_SIZE_BYTES buf s Hc) as (b1 & w1 & E & Hw1);
      [unfold MCR_BUFF_FILE_SIZE_BYTES; lia|].
    rewrite E. cbn [negb].
    destruct (IH b1 (writeBytes b1 MCR_BUFF_FILE_SIZE_BYTES (setSpi w1 s)) Hn Hw1)
      as (H1 & H2 & H3).
    split; [exact H1|]. split; [|exact H3].
    rewrite H2, writeBytes_length by (unfold MCR_BUFF_FILE_SIZE_BYTES; lia).
    unfold MCR_BUFF_FILE_SIZE_BYTES, setSpi. cbn [written]. lia.
Qed.

Lemma downloadCount_nonneg (buf : Buf) (s : Cli Env) :
  0 <= numGenBytes s -> deviceConnected (spi s) = true ->
  fst (downloadCount P buf s) = 0 /\
  Z.of_nat (List.length (written (snd (downloadCount P buf s)))) =
    Z.of_nat (List.length (written s)) + numGenBytes s /\
  pOutputFile (snd (downloadCount P buf s)) = false.
Proof.
  intros Hn Hc. unfold downloadCount.
  assert (Hq : 0 <= Z.quot (numGenBytes s) MCR_BUFF_FILE_SIZE_BYTES)
    by (apply Z.quot_pos; unfold MCR_BUFF_FILE_SIZE_BYTES; lia).
  assert (Hr : 0 <= Z.rem (numGenBytes s) MCR_BUFF_FILE_SIZE_BYTES < MCR_BUFF_FILE_SIZE_BYTES)
    by (apply Z.rem_bound_pos; unfold MCR_BUFF_FILE_SIZE_BYTES; lia).
  pose proof (Z.quot_rem' (numGenBytes s) MCR_BUFF_FILE_SIZE_BYTES) as Hqr.
  assert (Hu : u32 (Z.rem (numGenBytes s) MCR_BUFF_FILE_SIZE_BYTES) =
               Z.rem (numGenBytes s) MCR_BUFF_FILE_SIZE_BYTES)
    by (unfold u32; apply Z.mod_small; unfold MCR_BUFF_FILE_SIZE_BYTES in *; lia).
  rewrite Hu.
  set (q := Z.quot (numGenBytes s) MCR_BUFF_FILE_SIZE_BYTES) in *.
  set (r := Z.rem (numGenBytes s) MCR_BUFF_FILE_SIZE_BYTES) in *.
  destruct (chunkLoop_ok (Z.to_nat q) buf s Hc) as (b1 & s1 & E1 & H1 & H2 & H3 & H4).
  rewrite E1. cbn [negb]. rewrite Z2Nat.id in H2 by exact Hq.
  destruct (Z.ltb_spec 0 r) as [Hp|Hp].
  - assert (Ht : toInt32 r = r)
      by (unfold toInt32, MCR_BUFF_FILE_SIZE_BYTES in *; rewrite (proj2 (Z.ltb_lt r (2 ^ 31))); lia).
    rewrite Ht.
    destruct (spiRetrieve_ok r b1 s1 H1 Hp) as (b2 & w2 & E2 & _). rewrite E2. cbn [negb fst snd].
    destruct (closeHandle_props (writeBytes b2 r (setSpi w2 s1))) as (C1 & C2 & _).
    split; [reflexivity|]. split; [|exact C2].
    rewrite C1, writeBytes_length by lia. unfold setSpi. cbn [written].
    rewrite H2. unfold MCR_BUFF_FILE_SIZE_BYTES in *. lia.
  - destruct (closeHandle_props s1) as (C1 & C2 & _). cbn [fst snd].
    split; [reflexivity|]. split; [|exact C2].
    rewrite C1, H2. unfold MCR_BUFF_FILE_SIZE_BYTES in *. lia.
Qed.

Lemma downloadCount_neg (buf : Buf) (s : Cli Env) :
  numGenBytes s < 0 -> deviceConnected (spi s) = true ->
  written (snd (downloadCount P buf s)) = written s /\
  (Z.rem (numGenBytes s) MCR_BUFF_FILE_SIZE_BYTES = 0 -> fst (downloadCount P buf s) = 0) /\
  (Z.rem (numGenBytes s) MCR_BUFF_FILE_SIZE_BYTES <> 0 ->
   fst (downloadCount P buf s) = -1 /\
   lastError (spi (snd (downloadCount P buf s))) =
     "Invalid ammount of random bytes requested"%string).
Proof.
  intros Hn Hc. unfold downloadCount.
  assert (Hr1 : Z.rem (numGenBytes s) MCR_BUFF_FILE_SIZE_BYTES <= 0)
    by (apply Z.rem_nonpos; unfold MCR_BUFF_FILE_SIZE_BYTES; lia).
  assert (Hr2 : Z.abs (Z.rem (numGenBytes s) MCR_BUFF_FILE_SIZE_BYTES) <
                Z.abs MCR_BUFF_FILE_SIZE_BYTES)
    by (apply Z.rem_bound_abs; unfold MCR_BUFF_FILE_SIZE_BYTES; lia).
  pose proof (Z.quot_rem' (numGenBytes s) MCR_BUFF_FILE_SIZE_BYTES) as Hqr.
  set (q := Z.quot (numGenBytes s) MCR_BUFF_FILE_SIZE_BYTES) in *.
  set (r := Z.rem (numGenBytes s) MCR_BUFF_FILE_SIZE_BYTES) in *.
  assert (Hq : Z.to_nat q = 0%nat)
    by (unfold MCR_BUFF_FILE_SIZE_BYTES in *; lia).
  rewrite Hq. cbn [chunkLoop negb].
  destruct (Z.eq_dec r 0) as [H0|H0].
  - rewrite H0. cbn [u32 Z.modulo Z.ltb]. cbn -[closeHandle].
    destruct (closeHandle_props s) as (C1 & _).
    split; [exact C1|]. split; [reflexivity|]. intros []; reflexivity.
  - assert (Hu : u32 r = r + 2 ^ 32).
    { unfold u32. rewrite <- (Z.mod_add r 1 (2 ^ 32)) by lia. apply Z.mod_small.
      unfold MCR_BUFF_FILE_SIZE_BYTES in *. lia. }
    rewrite Hu.
    replace (0 <? r + 2 ^ 32) with true
      by (symmetry; apply Z.ltb_lt; unfold MCR_BUFF_FILE_SIZE_BYTES in *; lia).
    assert (Ht : toInt32 (r + 2 ^ 32) = r).
    { unfold toInt32. replace (r + 2 ^ 32 <? 2 ^ 31) with false
        by (symmetry; apply Z.ltb_ge; unfold MCR_BUFF_FILE_SIZE_BYTES in *; lia). lia. }
    rewrite Ht, (spiRetrieve_nonpos r buf s Hc) by lia. cbn.
    split; [reflexivity|]. split; [intros E; contradiction|]. auto.
Qed.

Lemma argLoop_keeps (argv : list string) (argc : Z) : forall fuel idx (s : Cli Env),
  spi (snd (argLoop L argv argc fuel idx s)) = spi s /\
  written (snd (argLoop L argv argc fuel idx s)) = written s /\
  pOutputFile (snd (argLoop L argv argc fuel idx s)) = pOutputFile s.
Proof.
  induction fuel as [|fuel IH]; intros idx s; [auto|].
  cbn [argLoop]. unfold parseDevicePath.
  repeat match goal with
  | |- context [if ?c then _ else _] =>
      lazymatch c with context [argLoop] => fail | _ => destruct c end
  end; cbn [fst snd]; auto;
  match goal with
  | |- context [argLoop L argv argc fuel ?i ?s'] =>
      destruct (IH i s') as (A & B & C); rewrite A, B, C; auto
  end.
Qed.

Lemma validateDevice_true_conn (w : World Env) :
  fst (validateDevice P w) = true -> deviceConnected w = true.
Proof. unfold validateDevice. destruct (deviceConnected w); cbn; auto. Qed.

Lemma unlimitedLoop_count (rounds : nat) (buf : Buf) (s : Cli Env) :
  numGenBytes s <> -1 ->
  unlimitedLoop P rounds buf s = let (r, s) := downloadCount P buf s in (Some r, s).
Proof.
  intros Hn. destruct rounds; cbn [unlimitedLoop];
    rewrite (proj2 (Z.eqb_neq _ _) Hn); reflexivity.
Qed.

Lemma download_setup (rounds : nat) (s : Cli Env) (name : string) :
  devicePath s = DEFAULT_SPI_DEV_PATH -> maxSpiMasterClock s = 250000 ->
  filePathName s = Some name -> isOutputToStandardOutput s = isStdoutName name ->
  fst (connect P DEFAULT_SPI_DEV_PATH (spi s)) = true ->
  fst (validateDevice P (snd (setMaxClockFrequency 250000
        (snd (connect P DEFAULT_SPI_DEV_PATH (spi s)))))) = true ->
  (if isStdoutName name then stdoutDupOk L else fopenOk L name) = true ->
  exists buf s', handleDownloadRequest P L rounds s = unlimitedLoop P rounds buf s' /\
    deviceConnected (spi s') = true /\ numGenBytes s' = numGenBytes s /\
    written s' = written s /\ pOutputFile s' = true.
Proof.
  intros Hd Hm Hf Ho Hconn Hval Hopen. unfold handleDownloadRequest.
  rewrite Hd. destruct (connect P DEFAULT_SPI_DEV_PATH (spi s)) as [ok w1] eqn:Ec.
  cbn [fst snd] in Hconn, Hval. subst ok.
  pose proof (validateDevice_true_conn _ Hval) as Hc1.
  destruct (validateDevice_msg P _ Hc1) as [Hc2 _].
  cbn -[validateDevice setMaxClockFrequency unlimitedLoop]. rewrite Hm.
  destruct (validateDevice P (snd (setMaxClockFrequency 250000 w1))) as [ok2 w2] eqn:Ev.
  cbn [fst snd] in Hval, Hc2. subst ok2. cbn -[unlimitedLoop]. rewrite Hf, Ho, Hopen. cbn -[unlimitedLoop].
  eexists _, _. split; [reflexivity|]. cbn. auto.
Qed.

Lemma argLoop_nb_fn (prog sn name : string) (s : Cli Env) :
  atoll L sn <= 200000000000 ->
  argLoop L [prog; "-nb"%string; sn; "-fn"%string; name] 5 5 1 s =
    (true, setFilePathName (Some name) (setNumGenBytes (atoll L sn) s)).
Proof.
  intros H. simpl. unfold arg. simpl.
  replace (200000000000 <? atoll L sn) with false by (symmetry; apply Z.ltb_ge; lia).
  reflexivity.
Qed.

Lemma argLoop_fn (prog name : string) (s : Cli Env) :
  argLoop L [prog; "-fn"%string; name] 3 3 1 s = (true, setFilePathName (Some name) s).
Proof. reflexivity. Qed.

(** The download of [prog -nb <sn> -fn <name>], up to the end of
    [handleDownloadRequest]. *)
Lemma nb_fn_download (rounds : nat) (prog sn name : string) (w : World Env) :
  atoll L sn <= 200000000000 ->
  fst (connect P DEFAULT_SPI_DEV_PATH w) = true ->
  fst (validateDevice P (snd (setMaxClockFrequency 250000
        (snd (connect P DEFAULT_SPI_DEV_PATH w))))) = true ->
  (if isStdoutName name then stdoutDupOk L else fopenOk L name) = true ->
  exists buf s', mcrngMain P L rounds [prog; "-nb"%string; sn; "-fn"%string; name] (initCli w) =
    (let (r, s) := unlimitedLoop P rounds buf s' in
     (option_map (fun r => if r =? 0 then -1 else 0) r, s)) /\
    deviceConnected (spi s') = true /\ numGenBytes s' = atoll L sn /\
    written s' = [] /\ pOutputFile s' = true.
Proof.
  intros Hn Hconn Hval Hopen. unfold mcrngMain, processArguments.
  change (Z.of_nat (List.length _)) with 5. change (List.length _) with 5%nat.
  rewrite argLoop_nb_fn by exact Hn. cbn -[processDownloadRequest].
  unfold processDownloadRequest. cbn [filePathName setFilePathName].
  match goal with |- context [handleDownloadRequest P L rounds ?s1] =>
    destruct (download_setup rounds s1 name eq_refl eq_refl eq_refl eq_refl Hconn Hval Hopen)
      as (buf & s' & E & H1 & H2 & H3 & H4)
  end.
  exists buf, s'. rewrite E. auto.
Qed.

Lemma mcrngMain_parse_error (rounds : nat) (argv : list string) (w : World Env) :
  (List.length argv < 2)%nat \/
  fst (argLoop L argv (Z.of_nat (List.length argv)) (List.length argv) 1
         (setDevicePath DEFAULT_SPI_DEV_PATH (initCli w))) = false ->
  fst (mcrngMain P L rounds argv (initCli w)) = Some 0 /\
  spi (snd (mcrngMain P L rounds argv (initCli w))) = w /\
  written (snd (mcrngMain P L rounds argv (initCli w))) = [] /\
  pOutputFile (snd (mcrngMain P L rounds argv (initCli w))) = false.
Proof.
  intros Herr. unfold mcrngMain, processArguments.
  destruct (Z.ltb_spec (Z.of_nat (List.length argv)) 2) as [Hl|Hl].
  - cbn. auto.
  - destruct Herr as [Herr|Herr]; [lia|].
    destruct (argLoop_keeps argv (Z.of_nat (List.length argv)) (List.length argv) 1
                (setDevicePath DEFAULT_SPI_DEV_PATH (initCli w))) as (K1 & K2 & K3).
    destruct (argLoop L argv _ _ 1 _) as [ok s1]. cbn in Herr, K1, K2, K3. subst ok.
    cbn. auto.
Qed.


(** [mcrng -nb <n> -fn <name>] with [0 <= n <= 200000000000], on a device
    that connects and validates and an output that opens: exactly [n] bytes
    are written and the output is closed, whatever the bus does afterwards
    (a failed byte transfer is not reported); [main] then returns -1, since
    it inverts the status of [processArguments]. *)
Theorem mcrng_counted_download (rounds : nat) (prog sn name : string) (w : World Env)
  (Hn : 0 <= atoll L sn <= 200000000000)
  (Hconn : fst (connect P DEFAULT_SPI_DEV_PATH w) = true)
  (Hval : fst (validateDevice P (snd (setMaxClockFrequency 250000
            (snd (connect P DEFAULT_SPI_DEV_PATH w))))) = true)
  (Hopen : (if isStdoutName name then stdoutDupOk L else fopenOk L name) = true) :
  fst (mcrngMain P L rounds [prog; "-nb"%string; sn; "-fn"%string; name] (initCli w)) = Some (-1) /\
  Z.of_nat (List.length (written (snd (mcrngMain P L rounds [prog; "-nb"%string; sn; "-fn"%string; name] (initCli w))))) = atoll L sn /\
  pOutputFile (snd (mcrngMain P L rounds [prog; "-nb"%string; sn; "-fn"%string; name] (initCli w))) = false.
Proof.
  destruct (nb_fn_download rounds prog sn name w ltac:(lia) Hconn Hval Hopen)
    as (buf & s' & E & H1 & H2 & H3 & H4).
  rewrite E, unlimitedLoop_count by lia.
  destruct (downloadCount_nonneg buf s' ltac:(lia) H1) as (D1 & D2 & D3).
  destruct (downloadCount P buf s') as [r s2]. cbn [fst snd] in D1, D2, D3. subst r.
  cbn [fst snd option_map]. split; [reflexivity|]. split; [|exact D3].
  rewrite D2, H3, H2. cbn [List.length Z.of_nat]. lia.
Qed.

(** [mcrng -fn <name>] without [-nb] downloads forever on any bus: after
    any number of rounds the program is still running, has written 32000
    bytes per round and keeps the output open. *)
Theorem mcrng_unlimited_download (rounds : nat) (prog name : string) (w : World Env)
  (Hconn : fst (connect P DEFAULT_SPI_DEV_PATH w) = true)
  (Hval : fst (validateDevice P (snd (setMaxClockFrequency 250000
            (snd (connect P DEFAULT_SPI_DEV_PATH w))))) = true)
  (Hopen : (if isStdoutName name then stdoutDupOk L else fopenOk L name) = true) :
  fst (mcrngMain P L rounds [prog; "-fn"%string; name] (initCli w)) = None /\
  Z.of_nat (List.length (written (snd (mcrngMain P L rounds [prog; "-fn"%string; name] (initCli w))))) =
    Z.of_nat rounds * MCR_BUFF_FILE_SIZE_BYTES /\
  pOutputFile (snd (mcrngMain P L rounds [prog; "-fn"%string; name] (initCli w))) = true.
Proof.
  unfold mcrngMain, processArguments.
  change (Z.of_nat (List.length [prog; "-fn"%string; name])) with 3.
  change (List.length [prog; "-fn"%string; name]) with 3%nat.
  rewrite argLoop_fn. cbn -[processDownloadRequest].
  unfold processDownloadRequest. cbn [filePathName setFilePathName].
  match goal with |- context [handleDownloadRequest P L rounds ?s1] =>
    destruct (download_setup rounds s1 name eq_refl eq_refl eq_refl eq_refl Hconn Hval Hopen)
      as (buf & s' & E & H1 & H2 & H3 & H4)
  end.
  rewrite E.
  destruct (unlimitedLoop_running rounds buf s' ltac:(rewrite H2; reflexivity) H1)
    as (U1 & U2 & U3).
  destruct (unlimitedLoop P rounds buf s') as [r s2]. cbn [fst snd] in U1, U2, U3. subst r.
  cbn [fst snd option_map]. split; [reflexivity|]. split; [|congruence].
  rewrite U2, H3. reflexivity.
Qed.

(** [mcrng -nb <n> -fn <name>] with a negative [n] other than -1 writes
    nothing.  If [n] is a multiple of 32000 the download still succeeds
    ([main] returns -1); otherwise the remainder, converted to an unsigned
    count and back to [int], is negative, the retrieval fails with
    "Invalid ammount of random bytes requested" and [main] returns 0. *)
Theorem mcrng_negative_count (rounds : nat) (prog sn name : string) (w : World Env)
  (Hn : atoll L sn < 0) (Hn1 : atoll L sn <> -1)
  (Hconn : fst (connect P DEFAULT_SPI_DEV_PATH w) = true)
  (Hval : fst (validateDevice P (snd (setMaxClockFrequency 250000
            (snd (connect P DEFAULT_SPI_DEV_PATH w))))) = true)
  (Hopen : (if isStdoutName name then stdoutDupOk L else fopenOk L name) = true) :
  written (snd (mcrngMain P L rounds [prog; "-nb"%string; sn; "-fn"%string; name] (initCli w))) = [] /\
  (Z.rem (atoll L sn) MCR_BUFF_FILE_SIZE_BYTES = 0 -> fst (mcrngMain P L rounds [prog; "-nb"%string; sn; "-fn"%string; name] (initCli w)) = Some (-1)) /\
  (Z.rem (atoll L sn) MCR_BUFF_FILE_SIZE_BYTES <> 0 ->
   fst (mcrngMain P L rounds [prog; "-nb"%string; sn; "-fn"%string; name] (initCli w)) = Some 0 /\
   lastError (spi (snd (mcrngMain P L rounds [prog; "-nb"%string; sn; "-fn"%string; name] (initCli w)))) = "Invalid ammount of random bytes requested"%string).
Proof.
  destruct (nb_fn_download rounds prog sn name w ltac:(lia) Hconn Hval Hopen)
    as (buf & s' & E & H1 & H2 & H3 & H4).
  rewrite E, unlimitedLoop_count by lia.
  destruct (downloadCount_neg buf s' ltac:(lia) H1) as (D1 & D2 & D3).
  rewrite H2 in D2, D3.
  destruct (downloadCount P buf s') as [r s2]. cbn [fst snd] in D1, D2, D3.
  cbn [fst snd option_map]. split; [rewrite D1; exact H3|]. split.
  - intros Hr. rewrite (D2 Hr). reflexivity.
  - intros Hr. destruct (D3 Hr) as [-> Hm]. split; [reflexivity | exact Hm].
Qed.

(** When [processArguments] stops on an argument error (fewer than two
    arguments, an option without its value, or a rejected [-nb] value),
    [main] returns 0, the device is never touched, nothing is written and
    no output is opened. *)
Theorem mcrng_argument_error (rounds : nat) (argv : list string) (w : World Env)
  (Herr : (List.length argv < 2)%nat \/
          fst (argLoop L argv (Z.of_nat (List.length argv)) (List.length argv) 1
                 (setDevicePath DEFAULT_SPI_DEV_PATH (initCli w))) = false) :
  fst (mcrngMain P L rounds argv (initCli w)) = Some 0 /\
  spi (snd (mcrngMain P L rounds argv (initCli w))) = w /\
  written (snd (mcrngMain P L rounds argv (initCli w))) = [] /\
  pOutputFile (snd (mcrngMain P L rounds argv (initCli w))) = false.
Proof. exact (mcrngMain_parse_error rounds argv w Herr). Qed.




(** When the arguments parse but the device at the chosen path cannot be
    opened, [handleDownloadRequest] fails before opening the output, and
    [main] returns 0, the success code: nothing is written and no output
    is opened. *)
Theorem mcrng_connect_failure (rounds : nat) (argv : list string) (w : World Env)
  (H2 : (2 <= List.length argv)%nat)
  (Hparse : fst (argLoop L argv (Z.of_nat (List.length argv)) (List.length argv) 1
                   (setDevicePath DEFAULT_SPI_DEV_PATH (initCli w))) = true)
  (Hconn : fst (connect P (devicePath (snd (argLoop L argv (Z.of_nat (List.length argv))
              (List.length argv) 1 (setDevicePath DEFAULT_SPI_DEV_PATH (initCli w))))) w)
           = false) :
  fst (mcrngMain P L rounds argv (initCli w)) = Some 0 /\
  written (snd (mcrngMain P L rounds argv (initCli w))) = [] /\
  pOutputFile (snd (mcrngMain P L rounds argv (initCli w))) = false.
Proof.
  unfold mcrngMain, processArguments.
  replace (Z.of_nat (List.length argv) <? 2) with false by (symmetry; apply Z.ltb_ge; lia).
  destruct (argLoop_keeps argv (Z.of_nat (List.length argv)) (List.length argv) 1
              (setDevicePath DEFAULT_SPI_DEV_PATH (initCli w))) as (K1 & K2 & K3).
  destruct (argLoop L argv _ _ 1 _) as [ok s1]. cbn [fst snd] in Hparse, Hconn.
  cbn in K1, K2, K3.
  subst ok. cbn [negb]. unfold processDownloadRequest, handleDownloadRequest.
  cbn [devicePath spi setOutputToStandardOutput]. rewrite K1.
  destruct (connect P (devicePath s1) w) as [ok w1]. cbn [fst] in Hconn. subst ok.
  cbn. split; [reflexivity|]. split; [exact K2|exact K3].
Qed.

End CliFacts.

(** ** Instances of the driver and utility facts *)

Local Open Scope string_scope.

Lemma connect_failure_first_step_witness :
  deviceConnected (constructSession (0 : Z)) = false /\
  lastError (snd (connect (configBus 3) "/dev/spidev0.0" (constructSession 0))) =
    "Could not set SPI transmission word bits"%string.
Proof.
  split; [reflexivity|].
  rewrite (connect_failure_first_step (configBus 3) "/dev/spidev0.0" (constructSession 0) 3
             eq_refl ltac:(lia)
             ltac:(intros m Hm; change (negb (Nat.eqb m 3) = true);
                   apply Bool.negb_true_iff, Nat.eqb_neq; lia)
             ltac:(vm_compute; reflexivity)).
  reflexivity.
Defined.



Lemma executeCommand_error_message_witness :
  deviceConnected (freshSession (counterBus 0)) = true /\
  fst (fst (executeCommand (counterBus 0) 108 0 (freshSession (counterBus 0)))) = false /\
  lastError (snd (executeCommand (counterBus 0) 108 0 (freshSession (counterBus 0)))) =
    "Could not exchange SPI bytes"%string.
Proof.
  split; [vm_compute; reflexivity|]. split; [vm_compute; reflexivity|].
  exact (proj2 (proj2 (executeCommand_error_message (counterBus 0) 108 0
    (freshSession (counterBus 0))
    (fst (fst (executeCommand (counterBus 0) 108 0 (freshSession (counterBus 0)))))
    (snd (fst (executeCommand (counterBus 0) 108 0 (freshSession (counterBus 0)))))
    (snd (executeCommand (counterBus 0) 108 0 (freshSession (counterBus 0))))
    ltac:(vm_compute; reflexivity) ltac:(vm_compute; reflexivity))
    ltac:(vm_compute; reflexivity))).
Defined.

Lemma retrieveBytes_write_bounds_witness :
  (3 < 0 \/ 3 <= 3) /\
  snd (fst (retrieveRandomBytes (counterBus (-1)) 3 (fun _ => 7)
              (freshSession (counterBus (-1))))) 3 = 7.
Proof.
  split; [right; lia|].
  exact (proj1 (retrieveBytes_write_bounds (counterBus (-1)) (freshSession (counterBus (-1)))
                  3 (fun _ => 7) 3 (or_intror (Z.le_refl 3)))).
Defined.

Lemma retrieveBytes_healthy_bus_witness :
  (forall e hz c, exists b e', xfer (configBus 7) e hz c = (Some b, e')) /\
  deviceConnected (freshSession (configBus 7)) = true /\
  fst (fst (retrieveRandomBytes (configBus 7) 4 (fun _ => 7) (freshSession (configBus 7))))
    = true /\
  transfers (snd (retrieveRandomBytes (configBus 7) 4 (fun _ => 7)
                    (freshSession (configBus 7)))) = 5%nat.
Proof.
  assert (Hall : forall e hz c, exists b e', xfer (configBus 7) e hz c = (Some b, e'))
    by (intros e hz c; eexists _, _; reflexivity).
  destruct (retrieveBytes_healthy_bus (configBus 7) (freshSession (configBus 7)) 4 (fun _ => 7)
              Hall ltac:(vm_compute; reflexivity) ltac:(lia)) as ((R1 & R2 & _) & _).
  split; [exact Hall|]. split; [vm_compute; reflexivity|]. split; [exact R1|].
  rewrite R2. vm_compute. reflexivity.
Defined.

Lemma validateDevice_failure_message_witness :
  deviceConnected (freshSession deadBus) = true /\
  fst (validateDevice deadBus (freshSession deadBus)) = false /\
  (lastError (snd (validateDevice deadBus (freshSession deadBus))) =
     "Could not exchange SPI bytes"%string \/
   lastError (snd (validateDevice deadBus (freshSession deadBus))) =
     "MicroRNG device not found"%string).
Proof.
  split; [vm_compute; reflexivity|]. split; [vm_compute; reflexivity|].
  exact (proj2 (validateDevice_failure_message deadBus (freshSession deadBus)
                  ltac:(vm_compute; reflexivity)) ltac:(vm_compute; reflexivity)).
Defined.

Lemma validateCommunication_failure_message_witness :
  deviceConnected (freshSession (freqBus 0)) = true /\
  fst (validateCommunication (freqBus 0) (freshSession (freqBus 0))) = false /\
  lastError (snd (validateCommunication (freqBus 0) (freshSession (freqBus 0)))) =
    "Could not validate SPI communication"%string.
Proof.
  split; [vm_compute; reflexivity|]. split; [vm_compute; reflexivity|].
  exact (validateCommunication_failure_message (freqBus 0) (freshSession (freqBus 0))
           ltac:(vm_compute; reflexivity) ltac:(vm_compute; reflexivity)).
Defined.

Lemma autodetect_outcome_witness :
  deviceConnected (freshSession (freqBus 0)) = true /\
  fst (autodetectMaxFrequency (freqBus 0) (freshSession (freqBus 0))) = false /\
  clockHz (snd (autodetectMaxFrequency (freqBus 0) (freshSession (freqBus 0)))) =
    clockHz (freshSession (freqBus 0)).
Proof.
  destruct (autodetect_outcome (freqBus 0) (freshSession (freqBus 0))
              ltac:(vm_compute; reflexivity)) as (_ & A2 & _).
  split; [vm_compute; reflexivity|]. split; [vm_compute; reflexivity|].
  exact (A2 ltac:(vm_compute; reflexivity)).
Defined.

Lemma connected_stays_connected_witness :
  deviceConnected (freshSession deadBus) = true /\
  deviceConnected (snd (retrieveTestBytes deadBus 5 (fun _ => 7) (freshSession deadBus))) =
    true.
Proof.
  split; [vm_compute; reflexivity|].
  destruct (connected_stays_connected deadBus (freshSession deadBus)
              ltac:(vm_compute; reflexivity)) as (_ & _ & _ & _ & T & _).
  exact (T 5 (fun _ => 7)).
Defined.

Lemma mcrng_counted_download_witness :
  0 <= atoll (glibc64 (fun _ => true) true) "5" <= 200000000000 /\
  fst (connect (counterBus (-1)) DEFAULT_SPI_DEV_PATH (constructSession 0)) = true /\
  fst (validateDevice (counterBus (-1)) (snd (setMaxClockFrequency 250000
         (snd (connect (counterBus (-1)) DEFAULT_SPI_DEV_PATH (constructSession 0)))))) = true /\
  (if isStdoutName "out.bin" then stdoutDupOk (glibc64 (fun _ => true) true)
   else fopenOk (glibc64 (fun _ => true) true) "out.bin") = true /\
  fst (mcrngMain (counterBus (-1)) (glibc64 (fun _ => true) true) 0
         ["mcrng"; "-nb"; "5"; "-fn"; "out.bin"] (initCli (constructSession 0))) = Some (-1) /\
  Z.of_nat (List.length (written (snd (mcrngMain (counterBus (-1))
    (glibc64 (fun _ => true) true) 0 ["mcrng"; "-nb"; "5"; "-fn"; "out.bin"]
    (initCli (constructSession 0)))))) = 5.
Proof.
  destruct (mcrng_counted_download (counterBus (-1)) (glibc64 (fun _ => true) true) 0
              "mcrng" "5" "out.bin" (constructSession 0)
              ltac:(vm_compute; split; discriminate)
              ltac:(vm_compute; reflexivity) ltac:(vm_compute; reflexivity)
              ltac:(vm_compute; reflexivity)) as (A & B & _).
  split; [vm_compute; split; discriminate|].
  split; [vm_compute; reflexivity|]. split; [vm_compute; reflexivity|].
  split; [vm_compute; reflexivity|]. split; [exact A|].
  rewrite B. vm_compute. reflexivity.
Defined.

Lemma mcrng_unlimited_download_witness :
  fst (connect (counterBus (-1)) DEFAULT_SPI_DEV_PATH (constructSession 0)) = true /\
  fst (validateDevice (counterBus (-1)) (snd (setMaxClockFrequency 250000
         (snd (connect (counterBus (-1)) DEFAULT_SPI_DEV_PATH (constructSession 0)))))) = true /\
  (if isStdoutName "STDOUT" then stdoutDupOk (glibc64 (fun _ => true) true)
   else fopenOk (glibc64 (fun _ => true) true) "STDOUT") = true /\
  fst (mcrngMain (counterBus (-1)) (glibc64 (fun _ => true) true) 2
         ["mcrng"; "-fn"; "STDOUT"] (initCli (constructSession 0))) = None /\
  Z.of_nat (List.length (written (snd (mcrngMain (counterBus (-1))
    (glibc64 (fun _ => true) true) 2 ["mcrng"; "-fn"; "STDOUT"]
    (initCli (constructSession 0)))))) = 64000.
Proof.
  destruct (mcrng_unlimited_download (counterBus (-1)) (glibc64 (fun _ => true) true) 2
              "mcrng" "STDOUT" (constructSession 0)
              ltac:(vm_compute; reflexivity) ltac:(vm_compute; reflexivity)
              ltac:(vm_compute; reflexivity)) as (A & B & _).
  split; [vm_compute; reflexivity|]. split; [vm_compute; reflexivity|].
  split; [vm_compute; reflexivity|]. split; [exact A|].
  rewrite B. reflexivity.
Defined.

Lemma mcrng_negative_count_witness :
  atoll (glibc64 (fun _ => true) true) "-5" < 0 /\
  atoll (glibc64 (fun _ => true) true) "-5" <> -1 /\
  fst (connect (counterBus (-1)) DEFAULT_SPI_DEV_PATH (constructSession 0)) = true /\
  fst (validateDevice (counterBus (-1)) (snd (setMaxClockFrequency 250000
         (snd (connect (counterBus (-1)) DEFAULT_SPI_DEV_PATH (constructSession 0)))))) = true /\
  (if isStdoutName "out.bin" then stdoutDupOk (glibc64 (fun _ => true) true)
   else fopenOk (glibc64 (fun _ => true) true) "out.bin") = true /\
  fst (mcrngMain (counterBus (-1)) (glibc64 (fun _ => true) true) 0
         ["mcrng"; "-nb"; "-5"; "-fn"; "out.bin"] (initCli (constructSession 0))) = Some 0.
Proof.
  destruct (mcrng_negative_count (counterBus (-1)) (glibc64 (fun _ => true) true) 0
              "mcrng" "-5" "out.bin" (constructSession 0)
              ltac:(vm_compute; reflexivity) ltac:(vm_compute; discriminate)
              ltac:(vm_compute; reflexivity) ltac:(vm_compute; reflexivity)
              ltac:(vm_compute; reflexivity)) as (_ & _ & C).
  split; [vm_compute; reflexivity|]. split; [vm_compute; discriminate|].
  split; [vm_compute; reflexivity|]. split; [vm_compute; reflexivity|].
  split; [vm_compute; reflexivity|].
  exact (proj1 (C ltac:(vm_compute; discriminate))).
Defined.

Lemma mcrng_argument_error_witness :
  fst (argLoop (glibc64 (fun _ => true) true) ["mcrng"; "-fn"] 2 2 1
         (setDevicePath DEFAULT_SPI_DEV_PATH (initCli (constructSession (0 : Z))))) = false /\
  fst (mcrngMain (counterBus (-1)) (glibc64 (fun _ => true) true) 0 ["mcrng"; "-fn"]
         (initCli (constructSession 0))) = Some 0.
Proof.
  split; [vm_compute; reflexivity|].
  refine (proj1 (mcrng_argument_error (counterBus (-1)) (glibc64 (fun _ => true) true) 0
    ["mcrng"; "-fn"] (constructSession 0) (or_intror _))).
  vm_compute. reflexivity.
Defined.




Lemma mcrng_connect_failure_witness :
  fst (argLoop (glibc64 (fun _ => true) true) ["mcrng"; "-nb"; "5"; "-fn"; "out.bin"] 5 5 1
         (setDevicePath DEFAULT_SPI_DEV_PATH (initCli (constructSession 0)))) = true /\
  fst (connect (configBus 0) DEFAULT_SPI_DEV_PATH (constructSession 0)) = false /\
  fst (mcrngMain (configBus 0) (glibc64 (fun _ => true) true) 0
         ["mcrng"; "-nb"; "5"; "-fn"; "out.bin"] (initCli (constructSession 0))) = Some 0.
Proof.
  split; [vm_compute; reflexivity|]. split; [vm_compute; reflexivity|].
  refine (proj1 (mcrng_connect_failure (configBus 0) (glibc64 (fun _ => true) true) 0
    ["mcrng"; "-nb"; "5"; "-fn"; "out.bin"] (constructSession 0) ltac:(cbn; lia) _ _));
    vm_compute; reflexivity.
Defined.
